(** * Relational operations of tfjs-core: [src/ops/compare.ts]

    A shallow embedding of the class [CompareOps] (six elementwise
    relations, each with a broadcasting and a strict entry point) together
    with the collaborators it imports: [convertToTensor], [assertTypesMatch],
    [assertShapesMatch], [assertAndGetBroadcastShape] and
    [ENV.engine.runKernel].  The collaborators live in other files of the
    library; they are modelled here from their written contracts. *)

From stdpp Require Import gmap strings list pretty.
From Stdlib Require Import ZArith Lia.

Local Open Scope string_scope.
Local Open Scope list_scope.
Local Open Scope Z_scope.

(** ** Data model *)

(** Modelled from the spec: the element type tags of a tensor ([DataType]
    of [types.ts], which lies outside the file verified here). *)
Inductive DataType := float32 | int32 | bool_.

#[global] Instance DataType_eq_dec : EqDecision DataType.
Proof. solve_decision. Defined.

(** A shape is [number[]]: the extent along each axis, most significant
    axis first. *)
Abbreviation Shape := (list Z).

(** Modelled from the spec: what a tensor holds besides its identity (the
    class [Tensor] of [tensor.ts] lies outside the file verified here): a
    shape, an element type tag and the data.  The payload is kept flat in
    row-major order, with integers for numbers; a boolean tensor stores 0
    and 1. *)
Record TensorInfo := mkInfo {
  shape : Shape;
  dtype : DataType;
  values : list Z
}.

(** Modelled from the spec: a [Tensor] object, an identity handed out by
    the engine together with its immutable contents. *)
Record Tensor := mkTensor {
  id : positive;
  info : TensorInfo
}.

(** [$a.shape] and [$a.dtype]. *)
Definition t_shape (t : Tensor) : Shape := shape (info t).
Definition t_dtype (t : Tensor) : DataType := dtype (info t).

(** ** Errors *)

(** Modelled from the spec: the error kinds of this layer (the collaborators
    that throw lie outside the file verified here).  [BackendFailure] is a
    failure of the kernel itself, passed on unchanged. *)
Inductive Error :=
| InvalidOperandError (role operationName : string)
| TypeMismatchError (first second : DataType)
| ShapeMismatchError (message : string)
| BackendFailure (payload : string).

Inductive ErrorKind := KInvalidOperand | KTypeMismatch | KShapeMismatch | KBackend.

Definition errorKind (e : Error) : ErrorKind :=
  match e with
  | InvalidOperandError _ _ => KInvalidOperand
  | TypeMismatchError _ _ => KTypeMismatch
  | ShapeMismatchError _ => KShapeMismatch
  | BackendFailure _ => KBackend
  end.

(** The outcome of code that may throw. *)
Inductive Result (A : Type) :=
| Ok (a : A)
| Err (e : Error).
Arguments Ok {A} a.
Arguments Err {A} e.

(** ** Pure validators *)

(** A shape as it appears inside a message: sizes separated by commas. *)
Definition showShape (s : Shape) : string :=
  String.concat "," (map (fun d : Z => pretty d) s).

(** Modelled from the spec: [assertTypesMatch] of [tensor_util.ts], which
    lies outside the file verified here.  It fails with [TypeMismatchError]
    unless both tensors report the same element type. *)
Definition assertTypesMatch (a b : Tensor) : Result unit :=
  if decide (t_dtype a = t_dtype b) then Ok tt
  else Err (TypeMismatchError (t_dtype a) (t_dtype b)).

(** Rank for rank, size for size: the comparison behind
    [assertShapesMatch]. *)
Fixpoint arraysEqual (n1 n2 : Shape) : bool :=
  match n1, n2 with
  | [], [] => true
  | x :: n1', y :: n2' => (x =? y) && arraysEqual n1' n2'
  | _, _ => false
  end.

(** Modelled from the spec: [assertShapesMatch] of [util.ts], which lies
    outside the file verified here.  It fails with [ShapeMismatchError] unless
    the two shapes are identical; the message starts with the context
    string and names both shapes. *)
Definition assertShapesMatch (shapeA shapeB : Shape) (context : string)
  : Result unit :=
  if arraysEqual shapeA shapeB then Ok tt
  else Err (ShapeMismatchError
              (context +:+ " Shapes " +:+ showShape shapeA +:+ " and "
                       +:+ showShape shapeB +:+ " must match")).

(** Left-pad a shape with size-1 axes up to rank [n]. *)
Definition padLeft (n : nat) (s : Shape) : Shape :=
  replicate (n - length s) 1 ++ s.

(** The size of axis [i] of a padded shape. *)
Definition axisAt (s : Shape) (i : nat) : Z := default 1 (s !! i).

(** An aligned pair of sizes the resolver rejects: both above 1 and
    unequal. *)
Definition clash (a b : Z) : bool := (1 <? a) && (1 <? b) && negb (a =? b).

(** One pass over the aligned axes, trailing axis first: [k] axes are still
    to be visited, the resolved sizes of the visited ones are in [result]
    (each new size is put in front). *)
Fixpoint broadcastLoop (msg : string) (pa pb : Shape) (k : nat)
    (result : Shape) : Result Shape :=
  match k with
  | O => Ok result
  | S i =>
      let a := axisAt pa i in
      let b := axisAt pb i in
      if clash a b
      then Err (ShapeMismatchError msg)
      else broadcastLoop msg pa pb i (Z.max a b :: result)
  end.

(** Modelled from the spec: [assertAndGetBroadcastShape] of
    [broadcast_util.ts] (the broadcast-shape resolver), which lies outside
    the file verified here.  Both shapes are aligned at the trailing axis, the
    shorter one padded with 1s; an axis pair with both sizes above 1 and
    unequal fails, otherwise the axis resolves to the larger size. *)
Definition assertAndGetBroadcastShape (shapeA shapeB : Shape) : Result Shape :=
  let errMsg := "Operands could not be broadcast together with shapes "
                  +:+ showShape shapeA +:+ " and " +:+ showShape shapeB +:+ "." in
  let l := Nat.max (length shapeA) (length shapeB) in
  broadcastLoop errMsg (padLeft l shapeA) (padLeft l shapeB) l [].

(** ** Alignment at the trailing axis, for stating properties *)

(** The size of the [j]-th axis counted from the trailing end; axes a shape
    does not have count as 1. *)
Definition dimFromEnd (s : Shape) (j : nat) : Z := default 1 (reverse s !! j).

Definition maxRank (s1 s2 : Shape) : nat := Nat.max (length s1) (length s2).

(** NumPy-style compatibility: every aligned pair is equal or holds a 1. *)
Definition BroadcastCompatible (s1 s2 : Shape) : Prop :=
  ∀ j, (j < maxRank s1 s2)%nat →
       dimFromEnd s1 j = dimFromEnd s2 j
       ∨ dimFromEnd s1 j = 1 ∨ dimFromEnd s2 j = 1.

(** Some aligned pair has both sizes above 1 and unequal. *)
Definition BroadcastIncompatible (s1 s2 : Shape) : Prop :=
  ∃ j, (j < maxRank s1 s2)%nat
       ∧ 1 < dimFromEnd s1 j ∧ 1 < dimFromEnd s2 j
       ∧ dimFromEnd s1 j ≠ dimFromEnd s2 j.

(** The two shapes differ in rank or in some dimension. *)
Definition ShapesDiffer (s1 s2 : Shape) : Prop :=
  length s1 ≠ length s2 ∨ ∃ i, (i < length s1)%nat ∧ s1 !! i ≠ s2 !! i.


(** ** The backend and the engine *)

(** The six relations. *)
Inductive Kind :=
| KNotEqual | KLess | KEqual | KLessEqual | KGreater | KGreaterEqual.

(** Modelled from the spec: the part of a backend this layer calls
    ([KernelBackend] of [kernels/backend.ts], which lies outside the file
    verified here), one kernel per relation.  A kernel is handed the two
    operand tensors and gives the contents of the result, or fails. *)
Module KernelBackend.
Record t := mk {
  notEqual : Tensor → Tensor → Result TensorInfo;
  less : Tensor → Tensor → Result TensorInfo;
  equal : Tensor → Tensor → Result TensorInfo;
  lessEqual : Tensor → Tensor → Result TensorInfo;
  greater : Tensor → Tensor → Result TensorInfo;
  greaterEqual : Tensor → Tensor → Result TensorInfo
}.
End KernelBackend.

(** The inputs of a kernel run, by name: [{$a, $b}]. *)
Abbreviation NamedTensors := (list (string * Tensor)).

(** Modelled from the spec: [ENV.engine] ([environment.ts] and [engine.ts]
    lie outside the file verified here): the active backend, the tensors
    alive (contents by identity), the named inputs of every kernel run so
    far (latest first), and the results recorded together with their
    inputs. *)
Record Engine := mkEngine {
  activeBackend : KernelBackend.t;
  registry : gmap positive TensorInfo;
  kernelRuns : list NamedTensors;
  tape : list (Tensor * NamedTensors)
}.

(** Code of this layer: it reads and updates the engine and may throw. *)
Definition M (A : Type) : Type := Engine → Result A * Engine.

#[global] Instance M_ret : MRet M := λ A a st, (Ok a, st).

#[global] Instance M_bind : MBind M := λ A B f m st,
  match m st with
  | (Ok a, st') => f a st'
  | (Err e, st') => (Err e, st')
  end.

Definition throw {A} (e : Error) : M A := λ st, (Err e, st).

(** A pure check run inside [M]. *)
Definition lift {A} (r : Result A) : M A := λ st, (r, st).

(** Modelled from the spec: [Tensor.make], the allocation of a new tensor
    object, registered under an identity no live tensor has. *)
Definition Tensor_make (i : TensorInfo) : M Tensor := λ st,
  let k := fresh (dom (registry st)) in
  (Ok (mkTensor k i),
   mkEngine (activeBackend st) (<[k := i]> (registry st))
            (kernelRuns st) (tape st)).

(** Modelled from the spec: [runKernel] of the execution engine
    ([engine.ts]), which lies outside the file verified here.  The kernel
    function is given the active backend; its result becomes a new tensor,
    recorded against the named inputs.  A failure of the kernel is passed
    on unchanged. *)
Definition runKernel (forwardFunc : KernelBackend.t → Result TensorInfo)
    (inputs : NamedTensors) : M Tensor := λ st,
  let st1 := mkEngine (activeBackend st) (registry st)
                      (inputs :: kernelRuns st) (tape st) in
  match forwardFunc (activeBackend st) with
  | Err e => (Err e, st1)
  | Ok out =>
      let k := fresh (dom (registry st1)) in
      let y := mkTensor k out in
      (Ok y,
       mkEngine (activeBackend st1) (<[k := out]> (registry st1))
                (kernelRuns st1) ((y, inputs) :: tape st1))
  end.

(** ** Operands *)

(** [TensorLike] of [types.ts]: literal data a tensor can be made of.  Its
    grammar belongs to the coercion utility and is left open here; this
    layer only needs to know whether a literal can be read as a tensor, and
    as which. *)
Class TensorLike (L : Type) := inferTensor : L → option TensorInfo.

(** [Tensor|TensorLike]. *)
Inductive Operand (L : Type) :=
| OTensor (t : Tensor)
| OLike (x : L).
Arguments OTensor {L} t.
Arguments OLike {L} x.

(** Modelled from the spec: [convertToTensor] of [tensor_util.ts], which
    lies outside the file verified here.  A tensor is passed through as it
    is; a literal becomes a new tensor, or the call fails with
    [InvalidOperandError] naming the argument and the operation. *)
Definition convertToTensor `{TensorLike L} (x : Operand L)
    (argName functionName : string) : M Tensor :=
  match x with
  | OTensor t => mret t
  | OLike v =>
      match inferTensor v with
      | Some i => Tensor_make i
      | None => throw (InvalidOperandError argName functionName)
      end
  end.

(** ** The entry points of [CompareOps]

    Each definition follows its method line by line.  The decorators [@doc]
    and [@operation] wrap a method without changing what it returns or
    throws and are left out.  A strict method ends in a call of the tensor
    method of the same relation ([$a.notEqual($b)]), which hands both
    tensors to the broadcasting entry point. *)
Module CompareOps.
Section WithLiterals.
Context `{TensorLike L}.

(** [notEqual]: the truth value of (a != b) element-wise, with
    broadcasting. *)
Definition notEqual (a b : Operand L) : M Tensor :=
  a' ← convertToTensor a "a" "notEqual";
  b' ← convertToTensor b "b" "notEqual";
  lift (assertTypesMatch a' b');;
  lift (assertAndGetBroadcastShape (t_shape a') (t_shape b'));;
  runKernel (λ backend, KernelBackend.notEqual backend a' b')
            [("$a", a'); ("$b", b')].

(** [notEqualStrict]: the same relation, for operands of one shape. *)
Definition notEqualStrict (a b : Operand L) : M Tensor :=
  a' ← convertToTensor a "a" "notEqualStrict";
  b' ← convertToTensor b "b" "notEqualStrict";
  lift (assertShapesMatch (t_shape a') (t_shape b')
                          "Error in notEqualStrict: ");;
  notEqual (OTensor a') (OTensor b').

(** [less]: the truth value of (a < b) element-wise, with
    broadcasting. *)
Definition less (a b : Operand L) : M Tensor :=
  a' ← convertToTensor a "a" "less";
  b' ← convertToTensor b "b" "less";
  lift (assertTypesMatch a' b');;
  lift (assertAndGetBroadcastShape (t_shape a') (t_shape b'));;
  runKernel (λ backend, KernelBackend.less backend a' b')
            [("$a", a'); ("$b", b')].

(** [lessStrict]: the same relation, for operands of one shape. *)
Definition lessStrict (a b : Operand L) : M Tensor :=
  a' ← convertToTensor a "a" "lessStrict";
  b' ← convertToTensor b "b" "lessStrict";
  lift (assertShapesMatch (t_shape a') (t_shape b')
                          "Error in lessStrict: ");;
  less (OTensor a') (OTensor b').

(** [equal]: the truth value of (a == b) element-wise, with
    broadcasting. *)
Definition equal (a b : Operand L) : M Tensor :=
  a' ← convertToTensor a "a" "equal";
  b' ← convertToTensor b "b" "equal";
  lift (assertTypesMatch a' b');;
  lift (assertAndGetBroadcastShape (t_shape a') (t_shape b'));;
  runKernel (λ backend, KernelBackend.equal backend a' b')
            [("$a", a'); ("$b", b')].

(** [equalStrict]: the same relation, for operands of one shape. *)
Definition equalStrict (a b : Operand L) : M Tensor :=
  a' ← convertToTensor a "a" "equalStrict";
  b' ← convertToTensor b "b" "equalStrict";
  lift (assertShapesMatch (t_shape a') (t_shape b')
                          "Error in equalStrict: ");;
  equal (OTensor a') (OTensor b').

(** [lessEqual]: the truth value of (a <= b) element-wise, with
    broadcasting. *)
Definition lessEqual (a b : Operand L) : M Tensor :=
  a' ← convertToTensor a "a" "lessEqual";
  b' ← convertToTensor b "b" "lessEqual";
  lift (assertTypesMatch a' b');;
  lift (assertAndGetBroadcastShape (t_shape a') (t_shape b'));;
  runKernel (λ backend, KernelBackend.lessEqual backend a' b')
            [("$a", a'); ("$b", b')].

(** [lessEqualStrict]: the same relation, for operands of one shape. *)
Definition lessEqualStrict (a b : Operand L) : M Tensor :=
  a' ← convertToTensor a "a" "lessEqualStrict";
  b' ← convertToTensor b "b" "lessEqualStrict";
  lift (assertShapesMatch (t_shape a') (t_shape b')
                          "Error in lessEqualStrict: ");;
  lessEqual (OTensor a') (OTensor b').

(** [greater]: the truth value of (a > b) element-wise, with
    broadcasting. *)
Definition greater (a b : Operand L) : M Tensor :=
  a' ← convertToTensor a "a" "greater";
  b' ← convertToTensor b "b" "greater";
  lift (assertTypesMatch a' b');;
  lift (assertAndGetBroadcastShape (t_shape a') (t_shape b'));;
  runKernel (λ backend, KernelBackend.greater backend a' b')
            [("$a", a'); ("$b", b')].

(** [greaterStrict]: the same relation, for operands of one shape. *)
Definition greaterStrict (a b : Operand L) : M Tensor :=
  a' ← convertToTensor a "a" "greaterStrict";
  b' ← convertToTensor b "b" "greaterStrict";
  lift (assertShapesMatch (t_shape a') (t_shape b')
                          "Error in greaterStrict: ");;
  greater (OTensor a') (OTensor b').

(** [greaterEqual]: the truth value of (a >= b) element-wise, with
    broadcasting. *)
Definition greaterEqual (a b : Operand L) : M Tensor :=
  a' ← convertToTensor a "a" "greaterEqual";
  b' ← convertToTensor b "b" "greaterEqual";
  lift (assertTypesMatch a' b');;
  lift (assertAndGetBroadcastShape (t_shape a') (t_shape b'));;
  runKernel (λ backend, KernelBackend.greaterEqual backend a' b')
            [("$a", a'); ("$b", b')].

(** [greaterEqualStrict]: the same relation, for operands of one shape. *)
Definition greaterEqualStrict (a b : Operand L) : M Tensor :=
  a' ← convertToTensor a "a" "greaterEqualStrict";
  b' ← convertToTensor b "b" "greaterEqualStrict";
  lift (assertShapesMatch (t_shape a') (t_shape b')
                          "Error in greaterEqualStrict: ");;
  greaterEqual (OTensor a') (OTensor b').

End WithLiterals.
End CompareOps.

(** ** The twelve entry points by relation *)

Section Catalogue.
Context `{TensorLike L}.

(** The broadcasting entry point of a relation. *)
Definition broadcastingEntry (k : Kind) : Operand L → Operand L → M Tensor :=
  match k with
  | KNotEqual => CompareOps.notEqual
  | KLess => CompareOps.less
  | KEqual => CompareOps.equal
  | KLessEqual => CompareOps.lessEqual
  | KGreater => CompareOps.greater
  | KGreaterEqual => CompareOps.greaterEqual
  end.

(** The strict entry point of a relation. *)
Definition strictEntry (k : Kind) : Operand L → Operand L → M Tensor :=
  match k with
  | KNotEqual => CompareOps.notEqualStrict
  | KLess => CompareOps.lessStrict
  | KEqual => CompareOps.equalStrict
  | KLessEqual => CompareOps.lessEqualStrict
  | KGreater => CompareOps.greaterStrict
  | KGreaterEqual => CompareOps.greaterEqualStrict
  end.

(** All twelve: a relation and whether the strict variant is meant. *)
Definition entryPoint (strict : bool) (k : Kind)
  : Operand L → Operand L → M Tensor :=
  if strict then strictEntry k else broadcastingEntry k.
End Catalogue.

(** The names the entry points pass to [convertToTensor]. *)
Definition broadcastingName (k : Kind) : string :=
  match k with
  | KNotEqual => "notEqual"
  | KLess => "less"
  | KEqual => "equal"
  | KLessEqual => "lessEqual"
  | KGreater => "greater"
  | KGreaterEqual => "greaterEqual"
  end.

Definition strictName (k : Kind) : string := broadcastingName k +:+ "Strict".

(** The context string a strict entry point passes to
    [assertShapesMatch]. *)
Definition strictContext (k : Kind) : string :=
  "Error in " +:+ strictName k +:+ ": ".

(** The kernel of a relation. *)
Definition kernelOf (k : Kind) (backend : KernelBackend.t)
  : Tensor → Tensor → Result TensorInfo :=
  match k with
  | KNotEqual => KernelBackend.notEqual backend
  | KLess => KernelBackend.less backend
  | KEqual => KernelBackend.equal backend
  | KLessEqual => KernelBackend.lessEqual backend
  | KGreater => KernelBackend.greater backend
  | KGreaterEqual => KernelBackend.greaterEqual backend
  end.

(** ** A reference backend *)

(** The number of elements of a tensor of a given shape. *)
Definition sizeFromShape (s : Shape) : Z := foldr Z.mul 1 s.

(** The first [n] consecutive blocks of [size] elements. *)
Fixpoint chunks (n size : nat) (l : list Z) : list (list Z) :=
  match n with
  | O => []
  | S n' => take size l :: chunks n' size (drop size l)
  end.

(** The payload of a tensor of shape [s], stretched to shape [out] of the
    same rank: an axis of size 1 is repeated as often as [out] asks. *)
Fixpoint expand (out s : Shape) (vals : list Z) : list Z :=
  match out, s with
  | dOut :: out', d :: s' =>
      let blocks :=
        (λ c, expand out' s' c)
          <$> chunks (Z.to_nat d) (Z.to_nat (sizeFromShape s')) vals in
      if d =? dOut then concat blocks
      else concat (replicate (Z.to_nat dOut) (concat blocks))
  | _, _ => vals
  end.

(** Modelled from the spec: a backend kernel ([backend_cpu.ts] and the
    like), which lies outside the file verified here.  It takes two tensors
    of broadcastable shape and returns a boolean tensor of the resolved
    shape, pairing the elements after stretching both operands. *)
Definition referenceKernel (rel : Z → Z → bool) (a b : Tensor)
  : Result TensorInfo :=
  match assertAndGetBroadcastShape (t_shape a) (t_shape b) with
  | Err e => Err e
  | Ok out =>
      let n := length out in
      let xs := expand out (padLeft n (t_shape a)) (values (info a)) in
      let ys := expand out (padLeft n (t_shape b)) (values (info b)) in
      Ok (mkInfo out bool_
                 (zip_with (λ x y, if rel x y then 1 else 0) xs ys))
  end.

Definition referenceBackend : KernelBackend.t :=
  KernelBackend.mk
    (referenceKernel (λ x y, negb (x =? y)))
    (referenceKernel Z.ltb)
    (referenceKernel Z.eqb)
    (referenceKernel Z.leb)
    (referenceKernel Z.gtb)
    (referenceKernel Z.geb).

(** An engine that has run nothing yet. *)
Definition freshEngine (backend : KernelBackend.t) : Engine :=
  mkEngine backend ∅ [] [].

(** ** Nested literals *)

(** Modelled from the spec: the tensor-like literals of the coercion
    utility, nested numeric or boolean data. *)
#[warnings="-register-all"]
Inductive NestedLiteral :=
| LNum (z : Z)
| LBool (b : bool)
| LArr (items : list NestedLiteral).

(** The shape of a literal, read along its first elements. *)
Fixpoint inferShape (v : NestedLiteral) : Shape :=
  match v with
  | LArr items =>
      Z.of_nat (length items)
      :: match items with
         | x :: _ => inferShape x
         | [] => []
         end
  | _ => []
  end.

(** The leaves of a literal, left to right, each with the element type it
    stands for. *)
Fixpoint leaves (v : NestedLiteral) : list (DataType * Z) :=
  match v with
  | LNum z => [(float32, z)]
  | LBool b => [(bool_, if b then 1 else 0)]
  | LArr items =>
      (fix go (l : list NestedLiteral) : list (DataType * Z) :=
         match l with
         | [] => []
         | x :: r => leaves x ++ go r
         end) items
  end.

(** A literal is a tensor when its leaves fill its shape and agree on one
    element type. *)
Definition inferNested (v : NestedLiteral) : option TensorInfo :=
  let ls := leaves v in
  let s := inferShape v in
  match ls with
  | [] => None
  | (d, _) :: _ =>
      if forallb (λ p, bool_decide (p.1 = d)) ls
         && (Z.of_nat (length ls) =? sizeFromShape s)
      then Some (mkInfo s d (snd <$> ls))
      else None
  end.

#[global] Instance NestedLiteral_like : TensorLike NestedLiteral := inferNested.

(** Two tensors with the same contents: shape, element type and data. *)
Definition sameContents (x y : Tensor) : Prop := info x = info y.

(** Two operands with the same value. *)
Definition sameOperand {L} (x y : Operand L) : Prop :=
  match x, y with
  | OTensor s, OTensor t => sameContents s t
  | OLike u, OLike v => u = v
  | _, _ => False
  end.

(** A backend whose kernels look at the contents of their operands only. *)
Definition ByContents (backend : KernelBackend.t) : Prop :=
  ∀ k a a' b b', sameContents a a' → sameContents b b' →
                 kernelOf k backend a b = kernelOf k backend a' b'.

(** Two outcomes that cannot be told apart by contents: results with the
    same shape, element type and data, or errors of the same kind. *)
Definition sameOutcome (r1 r2 : Result Tensor) : Prop :=
  match r1, r2 with
  | Ok x, Ok y => sameContents x y
  | Err e1, Err e2 => errorKind e1 = errorKind e2
  | _, _ => False
  end.

(** ** What the entry points have in common *)

Section Common.
Context `{TensorLike L}.

(** The first two lines of every entry point. *)
Definition coerceBoth (a b : Operand L) (functionName : string)
  : M (Tensor * Tensor) :=
  a' ← convertToTensor a "a" functionName;
  b' ← convertToTensor b "b" functionName;
  mret (a', b').

(** What an entry point does once both operands are tensors: the type
    check, the broadcast check, the kernel. *)
Definition validateAndRun (k : Kind) (a' b' : Tensor) : M Tensor :=
  lift (assertTypesMatch a' b');;
  lift (assertAndGetBroadcastShape (t_shape a') (t_shape b'));;
  runKernel (λ backend, kernelOf k backend a' b') [("$a", a'); ("$b", b')].

(** The six broadcasting entry points, as one function of the relation. *)
Definition dispatch (k : Kind) (a b : Operand L) : M Tensor :=
  a' ← convertToTensor a "a" (broadcastingName k);
  b' ← convertToTensor b "b" (broadcastingName k);
  validateAndRun k a' b'.

(** The six strict entry points, as one function of the relation. *)
Definition strictDispatch (k : Kind) (a b : Operand L) : M Tensor :=
  a' ← convertToTensor a "a" (strictName k);
  b' ← convertToTensor b "b" (strictName k);
  lift (assertShapesMatch (t_shape a') (t_shape b') (strictContext k));;
  dispatch k (OTensor a') (OTensor b').
End Common.

(** The engine after a step still has its backend and every tensor that
    was alive, with the contents it had. *)
Definition preserves (st st' : Engine) : Prop :=
  activeBackend st' = activeBackend st ∧ registry st ⊆ registry st'.

(** The step ran no kernel and recorded no result. *)
Definition quiet (st st' : Engine) : Prop :=
  kernelRuns st' = kernelRuns st ∧ tape st' = tape st.

(** What a call leaves behind, seen from the engine [st] it started in:
    the backend and every live tensor are as they were; a result is a
    tensor under an identity that was free in [st] and is now registered
    with the result's contents; after a failure no result is recorded. *)
Definition Framed (st : Engine) (out : Result Tensor * Engine) : Prop :=
  activeBackend out.2 = activeBackend st
  ∧ registry st ⊆ registry out.2
  ∧ match out.1 with
    | Ok y => registry st !! id y = None
              ∧ registry out.2 !! id y = Some (info y)
    | Err _ => tape out.2 = tape st
    end.

(** ** Sample tensors *)

(** An [int32] vector of two elements and a [bool] vector of three. *)
Definition sampleInt2 : Tensor := mkTensor 1 (mkInfo [2] int32 [1; 2]).
Definition sampleBool3 : Tensor := mkTensor 2 (mkInfo [3] bool_ [1; 0; 1]).

(** An [int32] vector and a [bool] vector of the same shape. *)
Definition sampleInt3 : Tensor := mkTensor 1 (mkInfo [3] int32 [1; 2; 3]).

(** Two [int32] tensors of shapes (2,3) and (4,3). *)
Definition sample23 : Tensor := mkTensor 1 (mkInfo [2; 3] int32 [1; 2; 3; 4; 5; 6]).
Definition sample43 : Tensor :=
  mkTensor 2 (mkInfo [4; 3] int32 [1; 2; 3; 4; 5; 6; 7; 8; 9; 10; 11; 12]).

(** The column [[[1],[2]]] and the vector [[2]] as tensors of element
    type [d]. *)
Definition columnOf (d : DataType) (i : positive) : Tensor :=
  mkTensor i (mkInfo [2; 1] d [1; 2]).
Definition twoOf (d : DataType) (i : positive) : Tensor :=
  mkTensor i (mkInfo [1] d [2]).

(** Vectors [[1,2]] and [[1,2,3]] of one element type. *)
Definition sampleVec2 : Tensor := mkTensor 1 (mkInfo [2] float32 [1; 2]).
Definition sampleVec3 : Tensor := mkTensor 2 (mkInfo [3] float32 [1; 2; 3]).

(** The literals [[[1],[2]]] and [[2]]. *)
Definition literalColumn : NestedLiteral := LArr [LArr [LNum 1]; LArr [LNum 2]].
Definition literalTwo : NestedLiteral := LArr [LNum 2].

(** An engine with the reference backend and two live tensors. *)
Definition sampleEngine : Engine :=
  mkEngine referenceBackend
           (<[1%positive := info sample23]> (<[2%positive := info sample43]> ∅))
           [] [].

(** ** Vocabulary for the behaviour of whole calls *)

(** The name an entry point passes on for diagnostics: its own. *)
Definition entryName (strict : bool) (k : Kind) : string :=
  if strict then strictName k else broadcastingName k.

(** The named inputs an entry point hands to [runKernel]: [{$a, $b}]. *)
Definition kernelInputs (a' b' : Tensor) : NamedTensors :=
  [("$a", a'); ("$b", b')].

(** Coerced operands that get past the checks of an entry point: one
    element type, and one shape (strict) or no aligned pair of unequal
    sizes above 1 (broadcasting). *)
Definition Accepted (strict : bool) (a' b' : Tensor) : Prop :=
  t_dtype a' = t_dtype b'
  ∧ if strict then t_shape a' = t_shape b'
    else ¬ BroadcastIncompatible (t_shape a') (t_shape b').

(** What a call adds to the engine's records, seen from the engine [st] it
    started in: nothing, and then it has failed; or one kernel run, and
    then a result is recorded with the inputs of that run, while a failure
    of the kernel records no result. *)
Definition Logged (st : Engine) (out : Result Tensor * Engine) : Prop :=
  (kernelRuns out.2 = kernelRuns st ∧ tape out.2 = tape st
   ∧ ∃ e, out.1 = Err e)
  ∨ ∃ ins, kernelRuns out.2 = ins :: kernelRuns st
           ∧ match out.1 with
             | Ok y => tape out.2 = (y, ins) :: tape st
             | Err _ => tape out.2 = tape st
             end.

(** A backend whose kernels all fail. *)
Definition failingKernel (a b : Tensor) : Result TensorInfo :=
  Err (BackendFailure "kernel failed").
Definition failingBackend : KernelBackend.t :=
  KernelBackend.mk failingKernel failingKernel failingKernel
                   failingKernel failingKernel failingKernel.

(** A literal whose rows have different lengths: no tensor. *)
Definition literalRagged : NestedLiteral :=
  LArr [LArr [LNum 1]; LArr [LNum 2; LNum 3]].

(** A scalar and a matrix of one element type. *)
Definition sampleScalar : Tensor := mkTensor 3 (mkInfo [] int32 [4]).

(** * Properties *)

(** ** The strict-shape validator *)

Lemma arraysEqual_refl (s : Shape) : arraysEqual s s = true.
Proof.
  induction s as [|x s IH]; simpl; [done|].
  rewrite Z.eqb_refl. exact IH.
Qed.

Lemma arraysEqual_eq (s1 s2 : Shape) : arraysEqual s1 s2 = true → s1 = s2.
Proof.
  revert s2. induction s1 as [|x s1 IH]; intros [|y s2]; simpl; try done.
  intros [Hxy Hrest]%andb_prop.
  apply Z.eqb_eq in Hxy. f_equal; [exact Hxy|]. by apply IH.
Qed.

Lemma arraysEqual_false (s1 s2 : Shape) : s1 ≠ s2 → arraysEqual s1 s2 = false.
Proof.
  intros Hne. destruct (arraysEqual s1 s2) eqn:E; [|done].
  by apply arraysEqual_eq in E.
Qed.

Lemma ShapesDiffer_neq (s1 s2 : Shape) : ShapesDiffer s1 s2 → s1 ≠ s2.
Proof.
  intros [Hlen | (i & _ & Hi)] ->; [by apply Hlen | by apply Hi].
Qed.

(** Shapes that are not the same list differ in rank or at some index. *)
Lemma neq_ShapesDiffer (s1 s2 : Shape) : s1 ≠ s2 → ShapesDiffer s1 s2.
Proof.
  revert s2. induction s1 as [|x s1 IH]; intros [|y s2] Hne.
  - done.
  - by left.
  - by left.
  - destruct (decide (x = y)) as [->|Hxy].
    + destruct (IH s2) as [Hlen | (i & Hi & Hd)]; [congruence | |].
      * left. simpl. congruence.
      * right. exists (S i). simpl. split; [lia | exact Hd].
    + right. exists 0%nat. simpl. split; [lia | congruence].
Qed.

Lemma assertShapesMatch_same (s : Shape) (ctx : string) :
  assertShapesMatch s s ctx = Ok tt.
Proof. unfold assertShapesMatch. by rewrite arraysEqual_refl. Qed.

Lemma prefix_append (p s : string) : String.prefix p (p +:+ s) = true.
Proof.
  induction p as [|c p IH]; simpl; [by destruct s|].
  destruct (Ascii.ascii_dec c c); [exact IH | done].
Qed.

Lemma assertShapesMatch_neq (s1 s2 : Shape) (ctx : string) :
  s1 ≠ s2 →
  ∃ msg, assertShapesMatch s1 s2 ctx = Err (ShapeMismatchError msg)
         ∧ String.prefix ctx msg = true.
Proof.
  intros Hne. unfold assertShapesMatch. rewrite (arraysEqual_false _ _ Hne).
  eexists. split; [reflexivity | apply prefix_append].
Qed.

(** C6: the strict-shape validator accepts a shape compared with itself,
    whatever the context string, and rejects with [ShapeMismatchError] any
    two shapes that differ in rank or in some dimension. *)
Theorem assertShapesMatch_spec (s1 s2 : Shape) (ctx : string) :
  assertShapesMatch s1 s1 ctx = Ok tt
  ∧ (ShapesDiffer s1 s2 →
     ∃ msg, assertShapesMatch s1 s2 ctx = Err (ShapeMismatchError msg)).
Proof.
  split; [apply assertShapesMatch_same|].
  intros Hd%ShapesDiffer_neq.
  destruct (assertShapesMatch_neq s1 s2 ctx Hd) as (msg & Hmsg & _).
  by exists msg.
Qed.

Lemma assertShapesMatch_spec_witness :
  ShapesDiffer [1; 2] [1; 2; 3]
  ∧ ShapesDiffer [2; 3] [2; 4]
  ∧ assertShapesMatch [1; 2] [1; 2] "Error in greaterStrict: " = Ok tt
  ∧ (∃ msg, assertShapesMatch [1; 2] [1; 2; 3] "Error in greaterStrict: "
            = Err (ShapeMismatchError msg))
  ∧ (∃ msg, assertShapesMatch [2; 3] [2; 4] "Error in greaterStrict: "
            = Err (ShapeMismatchError msg)).
Proof.
  assert (H1 : ShapesDiffer [1; 2] [1; 2; 3]) by (left; simpl; lia).
  assert (H2 : ShapesDiffer [2; 3] [2; 4]).
  { right. exists 1%nat. split; [simpl; lia | simpl; congruence]. }
  split; [exact H1|]. split; [exact H2|].
  split; [apply (assertShapesMatch_spec [1; 2] [1; 2; 3])|].
  split.
  - exact (proj2 (assertShapesMatch_spec [1; 2] [1; 2; 3]
                    "Error in greaterStrict: ") H1).
  - exact (proj2 (assertShapesMatch_spec [2; 3] [2; 4]
                    "Error in greaterStrict: ") H2).
Defined.

(** ** The broadcast-shape resolver *)

Lemma clash_true (a b : Z) : clash a b = true ↔ 1 < a ∧ 1 < b ∧ a ≠ b.
Proof.
  unfold clash. rewrite !andb_true_iff, negb_true_iff.
  rewrite !Z.ltb_lt, Z.eqb_neq. tauto.
Qed.

Lemma clash_false_compatible (a b : Z) :
  a = b ∨ a = 1 ∨ b = 1 → clash a b = false.
Proof.
  intros Hc. destruct (clash a b) eqn:E; [|done].
  apply clash_true in E. lia.
Qed.

(** A padded shape read from the front is the shape read from the
    trailing end. *)
Lemma axisAt_padLeft (n : nat) (s : Shape) (i : nat) :
  (length s ≤ n)%nat → (i < n)%nat →
  axisAt (padLeft n s) i = dimFromEnd s (n - 1 - i).
Proof.
  intros Hlen Hi. unfold axisAt, padLeft, dimFromEnd.
  destruct (decide (i < n - length s)%nat) as [Hpad|Hin].
  - rewrite lookup_app_l by (rewrite length_replicate; lia).
    rewrite lookup_replicate_2 by lia.
    rewrite lookup_ge_None_2 by (rewrite length_reverse; lia).
    done.
  - rewrite lookup_app_r by (rewrite length_replicate; lia).
    rewrite length_replicate.
    rewrite reverse_lookup by lia.
    do 2 f_equal. lia.
Qed.

(** The loop succeeds when no visited pair clashes: the resolved sizes of
    axes [0 .. k-1] end up in front of what was there. *)
Lemma broadcastLoop_ok (msg : string) (pa pb : Shape) (k : nat) (res : Shape) :
  (∀ i, (i < k)%nat → clash (axisAt pa i) (axisAt pb i) = false) →
  broadcastLoop msg pa pb k res
  = Ok (((λ i, Z.max (axisAt pa i) (axisAt pb i)) <$> seq 0 k) ++ res).
Proof.
  revert res. induction k as [|k IH]; intros res Hno; [done|].
  cbn [broadcastLoop].
  rewrite Hno by lia. rewrite IH by (intros; apply Hno; lia).
  rewrite seq_S, fmap_app, <- app_assoc. done.
Qed.

(** The loop fails as soon as some pair it visits clashes. *)
Lemma broadcastLoop_err (msg : string) (pa pb : Shape) (k : nat) (res : Shape)
    (i : nat) :
  (i < k)%nat → clash (axisAt pa i) (axisAt pb i) = true →
  broadcastLoop msg pa pb k res = Err (ShapeMismatchError msg).
Proof.
  revert res. induction k as [|k IH]; intros res Hi Hbad; [lia|].
  cbn [broadcastLoop].
  destruct (clash (axisAt pa k) (axisAt pb k)) eqn:E; [done|].
  apply IH; [|exact Hbad].
  destruct (decide (i = k)) as [->|]; [congruence | lia].
Qed.

Lemma resolve_compatible (s1 s2 : Shape) :
  BroadcastCompatible s1 s2 →
  ∃ r, assertAndGetBroadcastShape s1 s2 = Ok r
       ∧ length r = maxRank s1 s2
       ∧ ∀ j, (j < maxRank s1 s2)%nat →
              dimFromEnd r j = Z.max (dimFromEnd s1 j) (dimFromEnd s2 j).
Proof.
  intros Hc. unfold assertAndGetBroadcastShape. fold (maxRank s1 s2).
  set (n := maxRank s1 s2) in *.
  assert (Hn1 : (length s1 ≤ n)%nat) by (unfold n, maxRank; lia).
  assert (Hn2 : (length s2 ≤ n)%nat) by (unfold n, maxRank; lia).
  rewrite broadcastLoop_ok.
  - eexists. split; [reflexivity|]. rewrite app_nil_r.
    split; [by rewrite length_fmap, length_seq|].
    intros j Hj. unfold dimFromEnd at 1.
    rewrite reverse_lookup by (rewrite length_fmap, length_seq; lia).
    rewrite length_fmap, length_seq, list_lookup_fmap.
    rewrite lookup_seq_lt by lia. simpl.
    rewrite !axisAt_padLeft by lia.
    replace (n - 1 - (n - S j))%nat with j by lia. done.
  - intros i Hi. rewrite !axisAt_padLeft by lia.
    apply clash_false_compatible, Hc. lia.
Qed.

Lemma resolve_incompatible (s1 s2 : Shape) :
  BroadcastIncompatible s1 s2 →
  ∃ msg, assertAndGetBroadcastShape s1 s2 = Err (ShapeMismatchError msg).
Proof.
  intros (j & Hj & H1 & H2 & Hne). unfold assertAndGetBroadcastShape.
  fold (maxRank s1 s2). set (n := maxRank s1 s2) in *.
  assert (Hn1 : (length s1 ≤ n)%nat) by (unfold n, maxRank; lia).
  assert (Hn2 : (length s2 ≤ n)%nat) by (unfold n, maxRank; lia).
  eexists. apply (broadcastLoop_err _ _ _ _ _ (n - 1 - j)); [lia|].
  rewrite !axisAt_padLeft by lia.
  replace (n - 1 - (n - 1 - j))%nat with j by lia.
  by apply clash_true.
Qed.

(** C2: for shapes that are compatible when aligned at the trailing axis
    (every aligned pair equal or holding a 1) the resolver returns the shape
    of rank max(rank s1, rank s2) whose size on each aligned axis is the
    larger of the two; for shapes with an aligned pair of unequal sizes both
    above 1 it fails with [ShapeMismatchError]. *)
Theorem assertAndGetBroadcastShape_spec (s1 s2 : Shape) :
  (BroadcastCompatible s1 s2 →
   ∃ r, assertAndGetBroadcastShape s1 s2 = Ok r
        ∧ length r = maxRank s1 s2
        ∧ ∀ j, (j < maxRank s1 s2)%nat →
               dimFromEnd r j = Z.max (dimFromEnd s1 j) (dimFromEnd s2 j))
  ∧ (BroadcastIncompatible s1 s2 →
     ∃ msg, assertAndGetBroadcastShape s1 s2 = Err (ShapeMismatchError msg)).
Proof.
  split; [apply resolve_compatible | apply resolve_incompatible].
Qed.

Lemma assertAndGetBroadcastShape_spec_witness :
  BroadcastCompatible [2; 1] [1]
  ∧ BroadcastIncompatible [2; 3] [4; 3]
  ∧ (∃ r, assertAndGetBroadcastShape [2; 1] [1] = Ok r
          ∧ length r = maxRank [2; 1] [1]
          ∧ ∀ j, (j < maxRank [2; 1]%Z [1]%Z)%nat →
                 dimFromEnd r j
                 = Z.max (dimFromEnd [2; 1] j) (dimFromEnd [1] j))
  ∧ (∃ msg, assertAndGetBroadcastShape [2; 3] [4; 3]
            = Err (ShapeMismatchError msg)).
Proof.
  assert (Hc : BroadcastCompatible [2; 1] [1]).
  { intros [|[|j]] Hj; vm_compute; auto. }
  assert (Hi : BroadcastIncompatible [2; 3] [4; 3]).
  { exists 1%nat. vm_compute. repeat split; congruence || lia. }
  split; [exact Hc|]. split; [exact Hi|]. split.
  - exact (proj1 (assertAndGetBroadcastShape_spec [2; 1] [1]) Hc).
  - exact (proj2 (assertAndGetBroadcastShape_spec [2; 3] [4; 3]) Hi).
Defined.

(** ** Running the engine monad *)

Lemma bind_run {A B} (m : M A) (f : A → M B) (st : Engine) :
  (m ≫= f) st
  = match m st with
    | (Ok a, st') => f a st'
    | (Err e, st') => (Err e, st')
    end.
Proof. reflexivity. Qed.

Lemma preserves_trans (st1 st2 st3 : Engine) :
  preserves st1 st2 → preserves st2 st3 → preserves st1 st3.
Proof.
  intros [Hb1 Hr1] [Hb2 Hr2]. split; [congruence|].
  by transitivity (registry st2).
Qed.

Lemma quiet_trans (st1 st2 st3 : Engine) :
  quiet st1 st2 → quiet st2 st3 → quiet st1 st3.
Proof. intros [? ?] [? ?]. split; congruence. Qed.

(** An identity handed out by [fresh] belongs to no live tensor. *)
Lemma fresh_unregistered (reg : gmap positive TensorInfo) :
  reg !! fresh (dom reg) = None.
Proof. apply not_elem_of_dom, is_fresh. Qed.

Lemma Tensor_make_run (i : TensorInfo) (st : Engine) :
  ∃ y st', Tensor_make i st = (Ok y, st')
           ∧ info y = i
           ∧ registry st !! id y = None
           ∧ registry st' !! id y = Some i
           ∧ preserves st st' ∧ quiet st st'.
Proof.
  eexists _, _. split; [reflexivity|]. simpl.
  split; [done|]. split; [apply fresh_unregistered|].
  split; [apply lookup_insert_eq|].
  split; [|done]. split; [done|]. simpl.
  apply insert_subseteq, fresh_unregistered.
Qed.

Section EntryPoints.
Context `{TensorLike L}.

(** Coercion keeps the engine as it is, but for a tensor it may add. *)
Lemma convertToTensor_frame (x : Operand L) (r n : string) (st : Engine) :
  preserves st (convertToTensor x r n st).2
  ∧ quiet st (convertToTensor x r n st).2.
Proof.
  destruct x as [t|v]; simpl; [done|].
  destruct (inferTensor v) as [i|]; [|done].
  destruct (Tensor_make_run i st) as (y & st' & -> & _ & _ & _ & ? & ?).
  done.
Qed.

(** Whether and to what an operand coerces does not depend on the names
    passed for diagnostics. *)
Lemma convertToTensor_Ok_names (x : Operand L) (r n r' n' : string)
    (st st' : Engine) (t : Tensor) :
  convertToTensor x r n st = (Ok t, st') →
  convertToTensor x r' n' st = (Ok t, st').
Proof.
  destruct x as [u|v]; simpl; [done|].
  by destruct (inferTensor v).
Qed.

Lemma coerceBoth_inv (a b : Operand L) (n : string) (st st2 : Engine)
    (a' b' : Tensor) :
  coerceBoth a b n st = (Ok (a', b'), st2) →
  ∃ st1, convertToTensor a "a" n st = (Ok a', st1)
         ∧ convertToTensor b "b" n st1 = (Ok b', st2).
Proof.
  unfold coerceBoth. rewrite bind_run.
  destruct (convertToTensor a "a" n st) as [[x|e] st1]; [|done].
  rewrite bind_run.
  destruct (convertToTensor b "b" n st1) as [[y|e] st1'] eqn:Hb; [|done].
  cbv [mret M_ret]. intros [= <- <- <-]. by exists st1.
Qed.

Lemma coerceBoth_frame (a b : Operand L) (n : string) (st st2 : Engine)
    (a' b' : Tensor) :
  coerceBoth a b n st = (Ok (a', b'), st2) →
  preserves st st2 ∧ quiet st st2.
Proof.
  intros (st1 & Ha & Hb)%coerceBoth_inv.
  pose proof (convertToTensor_frame a "a" n st) as [Hp1 Hq1].
  pose proof (convertToTensor_frame b "b" n st1) as [Hp2 Hq2].
  rewrite Ha in Hp1, Hq1. rewrite Hb in Hp2, Hq2. simpl in *.
  split; [by eapply preserves_trans | by eapply quiet_trans].
Qed.

(** The twelve methods are the two dispatchers at the six relations. *)
Lemma broadcastingEntry_dispatch (k : Kind) (a b : Operand L) :
  broadcastingEntry k a b = dispatch k a b.
Proof. by destruct k. Qed.

Lemma strictEntry_dispatch (k : Kind) (a b : Operand L) :
  strictEntry k a b = strictDispatch k a b.
Proof. by destruct k. Qed.

(** *** Past the coercion *)

Lemma validateAndRun_type_mismatch (k : Kind) (a' b' : Tensor) (st : Engine) :
  t_dtype a' ≠ t_dtype b' →
  validateAndRun k a' b' st
  = (Err (TypeMismatchError (t_dtype a') (t_dtype b')), st).
Proof.
  intros Hne. unfold validateAndRun. rewrite bind_run.
  unfold lift, assertTypesMatch. by rewrite decide_False.
Qed.

Lemma validateAndRun_shape_mismatch (k : Kind) (a' b' : Tensor) (st : Engine)
    (e : Error) :
  t_dtype a' = t_dtype b' →
  assertAndGetBroadcastShape (t_shape a') (t_shape b') = Err e →
  validateAndRun k a' b' st = (Err e, st).
Proof.
  intros Hd Hs. unfold validateAndRun. rewrite bind_run.
  unfold lift at 1, assertTypesMatch. rewrite decide_True by done.
  rewrite bind_run. unfold lift. by rewrite Hs.
Qed.

Lemma validateAndRun_kernel (k : Kind) (a' b' : Tensor) (st : Engine)
    (r : Shape) :
  t_dtype a' = t_dtype b' →
  assertAndGetBroadcastShape (t_shape a') (t_shape b') = Ok r →
  validateAndRun k a' b' st
  = runKernel (λ backend, kernelOf k backend a' b')
              [("$a", a'); ("$b", b')] st.
Proof.
  intros Hd Hs. unfold validateAndRun. rewrite bind_run.
  unfold lift at 1, assertTypesMatch. rewrite decide_True by done.
  rewrite bind_run. unfold lift. by rewrite Hs.
Qed.

Lemma dispatch_coerced (k : Kind) (a b : Operand L) (n : string)
    (st st2 : Engine) (a' b' : Tensor) :
  coerceBoth a b n st = (Ok (a', b'), st2) →
  dispatch k a b st = validateAndRun k a' b' st2.
Proof.
  intros (st1 & Ha & Hb)%coerceBoth_inv. unfold dispatch.
  rewrite bind_run.
  rewrite (convertToTensor_Ok_names _ _ _ "a" (broadcastingName k) _ _ _ Ha).
  rewrite bind_run.
  by rewrite (convertToTensor_Ok_names _ _ _ "b" (broadcastingName k) _ _ _ Hb).
Qed.

Lemma dispatch_tensors (k : Kind) (a' b' : Tensor) (st : Engine) :
  dispatch (L:=L) k (OTensor a') (OTensor b') st = validateAndRun k a' b' st.
Proof. reflexivity. Qed.

Lemma strictDispatch_coerced (k : Kind) (a b : Operand L) (n : string)
    (st st2 : Engine) (a' b' : Tensor) :
  coerceBoth a b n st = (Ok (a', b'), st2) →
  strictDispatch k a b st
  = match assertShapesMatch (t_shape a') (t_shape b') (strictContext k) with
    | Ok _ => validateAndRun k a' b' st2
    | Err e => (Err e, st2)
    end.
Proof.
  intros (st1 & Ha & Hb)%coerceBoth_inv. unfold strictDispatch.
  rewrite bind_run.
  rewrite (convertToTensor_Ok_names _ _ _ "a" (strictName k) _ _ _ Ha).
  rewrite bind_run.
  rewrite (convertToTensor_Ok_names _ _ _ "b" (strictName k) _ _ _ Hb).
  rewrite bind_run. unfold lift.
  by destruct (assertShapesMatch _ _ _).
Qed.
End EntryPoints.

(** ** The order of the checks *)

Section CheckOrder.
Context `{TensorLike L}.

Lemma broadcasting_type_mismatch (k : Kind) (a b : Operand L) (n : string)
    (st st2 : Engine) (a' b' : Tensor) :
  coerceBoth a b n st = (Ok (a', b'), st2) →
  t_dtype a' ≠ t_dtype b' →
  broadcastingEntry k a b st
  = (Err (TypeMismatchError (t_dtype a') (t_dtype b')), st2).
Proof.
  intros Hc Hd. rewrite broadcastingEntry_dispatch.
  rewrite (dispatch_coerced _ _ _ _ _ _ _ _ Hc).
  by apply validateAndRun_type_mismatch.
Qed.

Lemma strict_shape_mismatch (k : Kind) (a b : Operand L) (n : string)
    (st st2 : Engine) (a' b' : Tensor) :
  coerceBoth a b n st = (Ok (a', b'), st2) →
  t_shape a' ≠ t_shape b' →
  ∃ msg, strictEntry k a b st = (Err (ShapeMismatchError msg), st2)
         ∧ String.prefix (strictContext k) msg = true.
Proof.
  intros Hc Hs. rewrite strictEntry_dispatch.
  rewrite (strictDispatch_coerced _ _ _ _ _ _ _ _ Hc).
  destruct (assertShapesMatch_neq _ _ (strictContext k) Hs)
    as (msg & -> & Hp).
  by exists msg.
Qed.

Lemma strict_same_shape (k : Kind) (a b : Operand L) (n : string)
    (st st2 : Engine) (a' b' : Tensor) :
  coerceBoth a b n st = (Ok (a', b'), st2) →
  t_shape a' = t_shape b' →
  strictEntry k a b st = validateAndRun k a' b' st2.
Proof.
  intros Hc Hs. rewrite strictEntry_dispatch.
  rewrite (strictDispatch_coerced _ _ _ _ _ _ _ _ Hc).
  by rewrite Hs, assertShapesMatch_same.
Qed.

(** C1, as the code has it: a broadcasting entry point called with
    operands of different element types fails with [TypeMismatchError]
    whatever the shapes are; a strict entry point called with operands of
    different element types and different shapes fails with
    [ShapeMismatchError], because it compares the shapes before it hands
    over to the broadcasting entry point. *)
Theorem type_check_order (k : Kind) (a b : Operand L) (n : string)
    (st st2 : Engine) (a' b' : Tensor) :
  coerceBoth a b n st = (Ok (a', b'), st2) →
  t_dtype a' ≠ t_dtype b' →
  broadcastingEntry k a b st
  = (Err (TypeMismatchError (t_dtype a') (t_dtype b')), st2)
  ∧ (t_shape a' ≠ t_shape b' →
     ∃ msg, strictEntry k a b st = (Err (ShapeMismatchError msg), st2)).
Proof.
  intros Hc Hd. split; [by eapply broadcasting_type_mismatch|].
  intros Hs.
  destruct (strict_shape_mismatch k _ _ _ _ _ _ _ Hc Hs) as (msg & Hm & _).
  by exists msg.
Qed.

(** C9: a strict entry point called with operands of one shape but of
    different element types fails with [TypeMismatchError]; the check is
    the one of the broadcasting entry point it hands over to, and no
    kernel runs. *)
Theorem strict_type_mismatch (k : Kind) (a b : Operand L) (n : string)
    (st st2 : Engine) (a' b' : Tensor) :
  coerceBoth a b n st = (Ok (a', b'), st2) →
  t_shape a' = t_shape b' →
  t_dtype a' ≠ t_dtype b' →
  strictEntry k a b st
  = (Err (TypeMismatchError (t_dtype a') (t_dtype b')), st2)
  ∧ strictEntry k a b st
    = broadcastingEntry k (OTensor a') (OTensor b') st2
  ∧ kernelRuns st2 = kernelRuns st.
Proof.
  intros Hc Hs Hd.
  rewrite (strict_same_shape _ _ _ _ _ _ _ _ Hc Hs).
  rewrite broadcastingEntry_dispatch, dispatch_tensors.
  split; [by apply validateAndRun_type_mismatch|].
  split; [done|]. by destruct (coerceBoth_frame _ _ _ _ _ _ _ Hc) as [_ [? _]].
Qed.

(** C4: a strict entry point whose coerced operands differ in rank or in
    some dimension fails with [ShapeMismatchError]; the message starts
    with the context string of that strict operation, and no kernel has
    run and no result has been recorded. *)
Theorem strict_rejects_before_backend (k : Kind) (a b : Operand L)
    (n : string) (st st2 : Engine) (a' b' : Tensor) :
  coerceBoth a b n st = (Ok (a', b'), st2) →
  ShapesDiffer (t_shape a') (t_shape b') →
  ∃ msg, strictEntry k a b st = (Err (ShapeMismatchError msg), st2)
         ∧ String.prefix ("Error in " +:+ strictName k +:+ ": ") msg = true
         ∧ kernelRuns st2 = kernelRuns st
         ∧ tape st2 = tape st.
Proof.
  intros Hc Hs%ShapesDiffer_neq.
  destruct (strict_shape_mismatch k _ _ _ _ _ _ _ Hc Hs) as (msg & Hm & Hp).
  destruct (coerceBoth_frame _ _ _ _ _ _ _ Hc) as [_ [Hk Ht]].
  by exists msg.
Qed.

(** C5: a broadcasting entry point whose coerced operands have shapes
    that cannot be broadcast fails before [runKernel]: no kernel has run
    and no result has been recorded.  With operands of one element type
    the failure is the [ShapeMismatchError] of the shape check; with
    different element types the earlier type check has failed already. *)
Theorem broadcasting_rejects_before_backend (k : Kind) (a b : Operand L)
    (n : string) (st st2 : Engine) (a' b' : Tensor) :
  coerceBoth a b n st = (Ok (a', b'), st2) →
  BroadcastIncompatible (t_shape a') (t_shape b') →
  ∃ e, broadcastingEntry k a b st = (Err e, st2)
       ∧ kernelRuns st2 = kernelRuns st
       ∧ tape st2 = tape st
       ∧ (t_dtype a' = t_dtype b' → ∃ msg, e = ShapeMismatchError msg)
       ∧ (t_dtype a' ≠ t_dtype b' → errorKind e = KTypeMismatch).
Proof.
  intros Hc (msg & Hs)%resolve_incompatible.
  destruct (coerceBoth_frame _ _ _ _ _ _ _ Hc) as [_ [Hk Ht]].
  rewrite broadcastingEntry_dispatch.
  rewrite (dispatch_coerced _ _ _ _ _ _ _ _ Hc).
  destruct (decide (t_dtype a' = t_dtype b')) as [Hd|Hd].
  - rewrite (validateAndRun_shape_mismatch _ _ _ _ _ Hd Hs).
    eexists. split; [done|]. split; [done|]. split; [done|].
    split; [by exists msg | done].
  - rewrite (validateAndRun_type_mismatch _ _ _ _ Hd).
    eexists. split; [done|]. split; [done|]. split; [done|].
    split; [done | done].
Qed.

Lemma same_shape_compatible (s : Shape) : BroadcastCompatible s s.
Proof. intros j _. by left. Qed.

(** C3: for each relation and operands that coerce to tensors of one
    shape and one element type, the strict entry point and the
    broadcasting entry point give the same outcome (the same result, or
    the same failure), and leave the engine in the same state: both run
    the kernel of the relation on the two coerced operands. *)
Theorem strict_agrees_with_broadcasting (k : Kind) (a b : Operand L)
    (n : string) (st st2 : Engine) (a' b' : Tensor) :
  coerceBoth a b n st = (Ok (a', b'), st2) →
  t_shape a' = t_shape b' →
  t_dtype a' = t_dtype b' →
  strictEntry k a b st = broadcastingEntry k a b st
  ∧ broadcastingEntry k a b st
    = runKernel (λ backend, kernelOf k backend a' b')
                [("$a", a'); ("$b", b')] st2.
Proof.
  intros Hc Hs Hd.
  rewrite (strict_same_shape _ _ _ _ _ _ _ _ Hc Hs).
  rewrite broadcastingEntry_dispatch.
  rewrite (dispatch_coerced _ _ _ _ _ _ _ _ Hc).
  split; [done|].
  destruct (resolve_compatible (t_shape a') (t_shape b')) as (r & Hr & _).
  { rewrite Hs. apply same_shape_compatible. }
  by eapply validateAndRun_kernel.
Qed.
End CheckOrder.

(** ** Inputs are left alone *)

Lemma Framed_after (st st1 : Engine) (out : Result Tensor * Engine) :
  preserves st st1 → quiet st st1 → Framed st1 out → Framed st out.
Proof.
  intros [Hb Hr] [_ Ht] (Hb' & Hr' & Hout).
  split; [congruence|]. split; [by transitivity (registry st1)|].
  destruct (out.1) as [y|e]; [|congruence].
  destruct Hout as [Hfree Hreg]. split; [|done].
  destruct (registry st !! id y) as [c|] eqn:E; [|done].
  apply (lookup_weaken _ _ _ _ E) in Hr. congruence.
Qed.

Lemma Framed_error (st : Engine) (e : Error) : Framed st (Err e, st).
Proof. by repeat split. Qed.

Lemma runKernel_Framed (f : KernelBackend.t → Result TensorInfo)
    (ins : NamedTensors) (st : Engine) :
  Framed st (runKernel f ins st).
Proof.
  unfold runKernel. destruct (f (activeBackend st)) as [out|e]; simpl.
  - split; [done|]. simpl. split.
    + apply insert_subseteq, fresh_unregistered.
    + split; [apply fresh_unregistered | apply lookup_insert_eq].
  - by repeat split.
Qed.

Section Frame.
Context `{TensorLike L}.

Lemma validateAndRun_Framed (k : Kind) (a' b' : Tensor) (st : Engine) :
  Framed st (validateAndRun k a' b' st).
Proof.
  destruct (decide (t_dtype a' = t_dtype b')) as [Hd|Hd].
  - destruct (assertAndGetBroadcastShape (t_shape a') (t_shape b'))
      as [r|e] eqn:Hs.
    + rewrite (validateAndRun_kernel _ _ _ _ _ Hd Hs).
      apply runKernel_Framed.
    + rewrite (validateAndRun_shape_mismatch _ _ _ _ _ Hd Hs).
      apply Framed_error.
  - rewrite (validateAndRun_type_mismatch _ _ _ _ Hd). apply Framed_error.
Qed.

Lemma dispatch_Framed (k : Kind) (a b : Operand L) (st : Engine) :
  Framed st (dispatch k a b st).
Proof.
  unfold dispatch. rewrite bind_run.
  pose proof (convertToTensor_frame a "a" (broadcastingName k) st)
    as [Hp1 Hq1].
  destruct (convertToTensor a "a" (broadcastingName k) st) as [[x|e] st1];
    simpl in Hp1, Hq1;
    [|by eapply Framed_after; [..|apply Framed_error]].
  rewrite bind_run.
  pose proof (convertToTensor_frame b "b" (broadcastingName k) st1)
    as [Hp2 Hq2].
  destruct (convertToTensor b "b" (broadcastingName k) st1) as [[y|e] st2];
    simpl in Hp2, Hq2.
  - eapply Framed_after; [| |apply validateAndRun_Framed].
    + by eapply preserves_trans.
    + by eapply quiet_trans.
  - eapply Framed_after; [| |apply Framed_error].
    + by eapply preserves_trans.
    + by eapply quiet_trans.
Qed.

Lemma strictDispatch_Framed (k : Kind) (a b : Operand L) (st : Engine) :
  Framed st (strictDispatch k a b st).
Proof.
  unfold strictDispatch. rewrite bind_run.
  pose proof (convertToTensor_frame a "a" (strictName k) st) as [Hp1 Hq1].
  destruct (convertToTensor a "a" (strictName k) st) as [[x|e] st1];
    simpl in Hp1, Hq1;
    [|by eapply Framed_after; [..|apply Framed_error]].
  rewrite bind_run.
  pose proof (convertToTensor_frame b "b" (strictName k) st1) as [Hp2 Hq2].
  destruct (convertToTensor b "b" (strictName k) st1) as [[y|e] st2];
    simpl in Hp2, Hq2.
  - rewrite bind_run. unfold lift.
    eapply Framed_after;
      [by eapply preserves_trans | by eapply quiet_trans |].
    destruct (assertShapesMatch _ _ _); [|apply Framed_error].
    rewrite dispatch_tensors. apply validateAndRun_Framed.
  - eapply Framed_after; [| |apply Framed_error].
    + by eapply preserves_trans.
    + by eapply quiet_trans.
Qed.

(** C7: whichever of the twelve entry points is called, on whatever
    operands and engine, every tensor alive before the call (the operands
    among them) is alive after it with the same shape, element type and
    data, and the backend is the same; the call either returns a tensor
    under an identity that was free before and now holds the result, or
    fails with an error and records no result. *)
Theorem entry_points_leave_inputs_alone (strict : bool) (k : Kind)
    (a b : Operand L) (st : Engine) :
  activeBackend (entryPoint strict k a b st).2 = activeBackend st
  ∧ registry st ⊆ registry (entryPoint strict k a b st).2
  ∧ match (entryPoint strict k a b st).1 with
    | Ok y => registry st !! id y = None
              ∧ registry (entryPoint strict k a b st).2 !! id y
                = Some (info y)
    | Err _ => tape (entryPoint strict k a b st).2 = tape st
    end.
Proof.
  change (Framed st (entryPoint strict k a b st)).
  destruct strict; simpl.
  - rewrite strictEntry_dispatch. apply strictDispatch_Framed.
  - rewrite broadcastingEntry_dispatch. apply dispatch_Framed.
Qed.
End Frame.

(** ** Determinism *)

Lemma runKernel_same (f1 f2 : KernelBackend.t → Result TensorInfo)
    (ins1 ins2 : NamedTensors) (st1 st2 : Engine) :
  f1 (activeBackend st1) = f2 (activeBackend st2) →
  sameOutcome (runKernel f1 ins1 st1).1 (runKernel f2 ins2 st2).1.
Proof.
  intros Hf. unfold runKernel. rewrite Hf.
  by destruct (f2 (activeBackend st2)).
Qed.

Section Determinism.
Context `{TensorLike L}.

Lemma convertToTensor_same (x1 x2 : Operand L) (r n : string)
    (st1 st2 : Engine) :
  sameOperand x1 x2 →
  sameOutcome (convertToTensor x1 r n st1).1 (convertToTensor x2 r n st2).1.
Proof.
  destruct x1 as [t1|v1], x2 as [t2|v2]; simpl; try done.
  intros ->. by destruct (inferTensor v2).
Qed.

Lemma validateAndRun_same (k : Kind) (a1 b1 a2 b2 : Tensor)
    (st1 st2 : Engine) :
  activeBackend st1 = activeBackend st2 →
  ByContents (activeBackend st1) →
  sameContents a1 a2 → sameContents b1 b2 →
  sameOutcome (validateAndRun k a1 b1 st1).1 (validateAndRun k a2 b2 st2).1.
Proof.
  intros Hbk Hby Ha Hb.
  assert (Hda : t_dtype a1 = t_dtype a2) by (unfold t_dtype; by rewrite Ha).
  assert (Hdb : t_dtype b1 = t_dtype b2) by (unfold t_dtype; by rewrite Hb).
  assert (Hsa : t_shape a1 = t_shape a2) by (unfold t_shape; by rewrite Ha).
  assert (Hsb : t_shape b1 = t_shape b2) by (unfold t_shape; by rewrite Hb).
  destruct (decide (t_dtype a1 = t_dtype b1)) as [Hd|Hd].
  - assert (Hd' : t_dtype a2 = t_dtype b2) by congruence.
    destruct (assertAndGetBroadcastShape (t_shape a1) (t_shape b1))
      as [r|e] eqn:Hs.
    + rewrite (validateAndRun_kernel _ _ _ _ _ Hd Hs).
      rewrite Hsa, Hsb in Hs.
      rewrite (validateAndRun_kernel _ _ _ _ _ Hd' Hs).
      apply runKernel_same. rewrite <- Hbk. by apply Hby.
    + rewrite (validateAndRun_shape_mismatch _ _ _ _ _ Hd Hs).
      rewrite Hsa, Hsb in Hs.
      by rewrite (validateAndRun_shape_mismatch _ _ _ _ _ Hd' Hs).
  - assert (Hd' : t_dtype a2 ≠ t_dtype b2) by congruence.
    by rewrite !validateAndRun_type_mismatch.
Qed.

(** The two coercions of a call, run on operands of the same value in two
    engines with one backend: both fail alike, or both give tensors of the
    same contents. *)
Lemma coercions_same (a1 b1 a2 b2 : Operand L) (n : string)
    (st1 st2 : Engine) (f1 f2 : Tensor → Tensor → M Tensor) :
  activeBackend st1 = activeBackend st2 →
  sameOperand a1 a2 → sameOperand b1 b2 →
  (∀ x1 y1 x2 y2 s1 s2,
      activeBackend s1 = activeBackend s2 →
      activeBackend s1 = activeBackend st1 →
      sameContents x1 x2 → sameContents y1 y2 →
      sameOutcome (f1 x1 y1 s1).1 (f2 x2 y2 s2).1) →
  sameOutcome
    ((a' ← convertToTensor a1 "a" n; b' ← convertToTensor b1 "b" n;
      f1 a' b') st1).1
    ((a' ← convertToTensor a2 "a" n; b' ← convertToTensor b2 "b" n;
      f2 a' b') st2).1.
Proof.
  intros Hbk Ha Hb Hrest. rewrite !bind_run.
  pose proof (convertToTensor_same a1 a2 "a" n st1 st2 Ha) as Hsa.
  pose proof (convertToTensor_frame a1 "a" n st1) as [[Hb1 _] _].
  pose proof (convertToTensor_frame a2 "a" n st2) as [[Hb2 _] _].
  destruct (convertToTensor a1 "a" n st1) as [[x1|e1] s1],
           (convertToTensor a2 "a" n st2) as [[x2|e2] s2];
    simpl in *; try done.
  rewrite !bind_run.
  pose proof (convertToTensor_same b1 b2 "b" n s1 s2 Hb) as Hsb.
  pose proof (convertToTensor_frame b1 "b" n s1) as [[Hb3 _] _].
  pose proof (convertToTensor_frame b2 "b" n s2) as [[Hb4 _] _].
  destruct (convertToTensor b1 "b" n s1) as [[y1|e1] s1'],
           (convertToTensor b2 "b" n s2) as [[y2|e2] s2'];
    simpl in *; try done.
  apply Hrest; congruence.
Qed.

Lemma dispatch_same (k : Kind) (a1 b1 a2 b2 : Operand L) (st1 st2 : Engine) :
  activeBackend st1 = activeBackend st2 →
  ByContents (activeBackend st1) →
  sameOperand a1 a2 → sameOperand b1 b2 →
  sameOutcome (dispatch k a1 b1 st1).1 (dispatch k a2 b2 st2).1.
Proof.
  intros Hbk Hby Ha Hb. unfold dispatch.
  apply (coercions_same _ _ _ _ _ _ _ (validateAndRun k) (validateAndRun k));
    [done..|].
  intros x1 y1 x2 y2 s1 s2 Hs Hs1 Hx Hy.
  apply validateAndRun_same; [done | by rewrite Hs1 | done | done].
Qed.

Lemma strictDispatch_same (k : Kind) (a1 b1 a2 b2 : Operand L)
    (st1 st2 : Engine) :
  activeBackend st1 = activeBackend st2 →
  ByContents (activeBackend st1) →
  sameOperand a1 a2 → sameOperand b1 b2 →
  sameOutcome (strictDispatch k a1 b1 st1).1 (strictDispatch k a2 b2 st2).1.
Proof.
  intros Hbk Hby Ha Hb. unfold strictDispatch.
  apply coercions_same; [done..|]. cbv beta.
  intros x1 y1 x2 y2 s1 s2 Hs Hs1 Hx Hy.
  rewrite !bind_run. unfold lift.
  assert (Hsx : t_shape x1 = t_shape x2) by (unfold t_shape; by rewrite Hx).
  assert (Hsy : t_shape y1 = t_shape y2) by (unfold t_shape; by rewrite Hy).
  rewrite Hsx, Hsy.
  destruct (assertShapesMatch (t_shape x2) (t_shape y2) (strictContext k));
    [|done].
  rewrite !dispatch_tensors.
  apply validateAndRun_same; [done | by rewrite Hs1 | done | done].
Qed.

(** C10: with one backend whose kernels depend on the contents of their
    operands only, two calls of the same entry point on operands of equal
    value (equal shape, element type and data; equal literals) give
    results equal in shape, element type and data, or fail with errors of
    the same kind, whatever else the two engines hold. *)
Theorem entry_points_deterministic (strict : bool) (k : Kind)
    (a1 b1 a2 b2 : Operand L) (st1 st2 : Engine) :
  activeBackend st1 = activeBackend st2 →
  ByContents (activeBackend st1) →
  sameOperand a1 a2 → sameOperand b1 b2 →
  sameOutcome (entryPoint strict k a1 b1 st1).1
              (entryPoint strict k a2 b2 st2).1.
Proof.
  intros Hbk Hby Ha Hb. destruct strict; simpl.
  - rewrite !strictEntry_dispatch. by apply strictDispatch_same.
  - rewrite !broadcastingEntry_dispatch. by apply dispatch_same.
Qed.
End Determinism.

(** ** The reference backend at work *)

Lemma referenceBackend_ByContents : ByContents referenceBackend.
Proof.
  intros k a a' b b' Ha Hb. unfold sameContents in *.
  destruct k; simpl; unfold referenceKernel, t_shape; by rewrite Ha, Hb.
Qed.

Lemma less_column_two (d : DataType) (i j : positive) :
  referenceKernel Z.ltb (columnOf d i) (twoOf d j)
  = Ok (mkInfo [2; 1] bool_ [1; 0]).
Proof. reflexivity. Qed.

(** C8: the shapes (2,1) and (1,) resolve to (2,1), and [less] called on
    [[[1],[2]]] and [[2]] succeeds with the boolean tensor
    [[[true],[false]]] of shape (2,1), both for the literals and for
    tensors of any one element type in any engine that runs the reference
    backend. *)
Theorem less_broadcast_example :
  assertAndGetBroadcastShape [2; 1] [1] = Ok [2; 1]
  ∧ (CompareOps.less (OLike literalColumn) (OLike literalTwo)
                     (freshEngine referenceBackend)).1
    = Ok (mkTensor 3 (mkInfo [2; 1] bool_ [1; 0]))
  ∧ ∀ (d : DataType) (i j : positive) (reg : gmap positive TensorInfo)
      (runs : list NamedTensors) (tp : list (Tensor * NamedTensors)),
      ∃ y, (CompareOps.less (L:=NestedLiteral)
              (OTensor (columnOf d i)) (OTensor (twoOf d j))
              (mkEngine referenceBackend reg runs tp)).1 = Ok y
           ∧ info y = mkInfo [2; 1] bool_ [1; 0].
Proof.
  split; [reflexivity|]. split; [by vm_compute|].
  intros d i j reg runs tp.
  change (CompareOps.less (L:=NestedLiteral)) with (dispatch (L:=NestedLiteral) KLess).
  rewrite dispatch_tensors.
  rewrite (validateAndRun_kernel _ _ _ _ [2; 1]) by done.
  unfold runKernel. cbn [activeBackend kernelOf referenceBackend KernelBackend.less].
  rewrite less_column_two. by eexists.
Qed.

(** ** The checks on concrete calls *)

(** Against C1 as worded: [notEqualStrict] on an [int32] vector of two
    elements and a [bool] vector of three: element types and shapes both differ (and the shapes
    cannot be broadcast), and the error is the one of the shape check. *)
Lemma strict_reports_shape_mismatch_first :
  t_dtype sampleInt2 ≠ t_dtype sampleBool3
  ∧ ShapesDiffer (t_shape sampleInt2) (t_shape sampleBool3)
  ∧ BroadcastIncompatible (t_shape sampleInt2) (t_shape sampleBool3)
  ∧ (CompareOps.notEqualStrict (L:=NestedLiteral)
       (OTensor sampleInt2) (OTensor sampleBool3)
       (freshEngine referenceBackend)).1
    = Err (ShapeMismatchError
             "Error in notEqualStrict:  Shapes 2 and 3 must match")
  ∧ ¬ ∃ d1 d2,
        (CompareOps.notEqualStrict (L:=NestedLiteral)
           (OTensor sampleInt2) (OTensor sampleBool3)
           (freshEngine referenceBackend)).1
        = Err (TypeMismatchError d1 d2).
Proof.
  split; [done|]. split; [right; exists 0%nat; by vm_compute|].
  split.
  { exists 0%nat. vm_compute. repeat split; congruence || lia. }
  split; [by vm_compute|].
  intros (d1 & d2 & Hd). vm_compute in Hd. discriminate.
Qed.

Lemma type_check_order_witness :
  coerceBoth (L:=NestedLiteral) (OTensor sampleInt2) (OTensor sampleBool3)
             "notEqual" (freshEngine referenceBackend)
  = (Ok (sampleInt2, sampleBool3), freshEngine referenceBackend)
  ∧ t_dtype sampleInt2 ≠ t_dtype sampleBool3
  ∧ broadcastingEntry (L:=NestedLiteral) KNotEqual
      (OTensor sampleInt2) (OTensor sampleBool3) (freshEngine referenceBackend)
    = (Err (TypeMismatchError int32 bool_), freshEngine referenceBackend)
  ∧ (t_shape sampleInt2 ≠ t_shape sampleBool3 →
     ∃ msg, strictEntry (L:=NestedLiteral) KNotEqual
              (OTensor sampleInt2) (OTensor sampleBool3)
              (freshEngine referenceBackend)
            = (Err (ShapeMismatchError msg), freshEngine referenceBackend)).
Proof.
  assert (Hd : t_dtype sampleInt2 ≠ t_dtype sampleBool3) by discriminate.
  split; [reflexivity|]. split; [exact Hd|].
  exact (type_check_order (L:=NestedLiteral) KNotEqual
           (OTensor sampleInt2) (OTensor sampleBool3) "notEqual"
           (freshEngine referenceBackend) (freshEngine referenceBackend)
           sampleInt2 sampleBool3 eq_refl Hd).
Defined.

Lemma strict_type_mismatch_witness :
  coerceBoth (L:=NestedLiteral) (OTensor sampleInt3) (OTensor sampleBool3)
             "equalStrict" sampleEngine
  = (Ok (sampleInt3, sampleBool3), sampleEngine)
  ∧ t_shape sampleInt3 = t_shape sampleBool3
  ∧ t_dtype sampleInt3 ≠ t_dtype sampleBool3
  ∧ strictEntry (L:=NestedLiteral) KEqual
      (OTensor sampleInt3) (OTensor sampleBool3) sampleEngine
    = (Err (TypeMismatchError int32 bool_), sampleEngine).
Proof.
  assert (Hd : t_dtype sampleInt3 ≠ t_dtype sampleBool3) by discriminate.
  split; [reflexivity|]. split; [reflexivity|]. split; [exact Hd|].
  exact (proj1 (strict_type_mismatch (L:=NestedLiteral) KEqual
                  (OTensor sampleInt3) (OTensor sampleBool3) "equalStrict"
                  sampleEngine sampleEngine sampleInt3 sampleBool3
                  eq_refl eq_refl Hd)).
Defined.

Lemma strict_rejects_before_backend_witness :
  coerceBoth (L:=NestedLiteral) (OTensor sampleVec2) (OTensor sampleVec3)
             "greaterStrict" sampleEngine
  = (Ok (sampleVec2, sampleVec3), sampleEngine)
  ∧ ShapesDiffer (t_shape sampleVec2) (t_shape sampleVec3)
  ∧ ∃ msg, strictEntry (L:=NestedLiteral) KGreater
             (OTensor sampleVec2) (OTensor sampleVec3) sampleEngine
           = (Err (ShapeMismatchError msg), sampleEngine)
           ∧ String.prefix "Error in greaterStrict: " msg = true.
Proof.
  assert (Hd : ShapesDiffer (t_shape sampleVec2) (t_shape sampleVec3)).
  { right. exists 0%nat. split; [simpl; lia | simpl; congruence]. }
  split; [reflexivity|]. split; [exact Hd|].
  destruct (strict_rejects_before_backend (L:=NestedLiteral) KGreater
              (OTensor sampleVec2) (OTensor sampleVec3) "greaterStrict"
              sampleEngine sampleEngine sampleVec2 sampleVec3
              eq_refl Hd) as (msg & Hm & Hp & _).
  exists msg. split; [exact Hm | exact Hp].
Defined.

Lemma broadcasting_rejects_before_backend_witness :
  coerceBoth (L:=NestedLiteral) (OTensor sample23) (OTensor sample43)
             "less" sampleEngine
  = (Ok (sample23, sample43), sampleEngine)
  ∧ BroadcastIncompatible (t_shape sample23) (t_shape sample43)
  ∧ ∃ e, broadcastingEntry (L:=NestedLiteral) KLess
           (OTensor sample23) (OTensor sample43) sampleEngine
         = (Err e, sampleEngine)
         ∧ kernelRuns sampleEngine = kernelRuns sampleEngine.
Proof.
  assert (Hi : BroadcastIncompatible (t_shape sample23) (t_shape sample43)).
  { exists 1%nat. vm_compute. repeat split; congruence || lia. }
  split; [reflexivity|]. split; [exact Hi|].
  destruct (broadcasting_rejects_before_backend (L:=NestedLiteral) KLess
              (OTensor sample23) (OTensor sample43) "less"
              sampleEngine sampleEngine sample23 sample43
              eq_refl Hi) as (e & He & Hk & _).
  exists e. split; [exact He | exact Hk].
Defined.

Lemma strict_agrees_with_broadcasting_witness :
  coerceBoth (L:=NestedLiteral) (OTensor sample23) (OTensor sample23)
             "lessEqual" sampleEngine
  = (Ok (sample23, sample23), sampleEngine)
  ∧ strictEntry (L:=NestedLiteral) KLessEqual
      (OTensor sample23) (OTensor sample23) sampleEngine
    = broadcastingEntry KLessEqual
        (OTensor sample23) (OTensor sample23) sampleEngine.
Proof.
  split; [reflexivity|].
  exact (proj1 (strict_agrees_with_broadcasting (L:=NestedLiteral) KLessEqual
                  (OTensor sample23) (OTensor sample23) "lessEqual"
                  sampleEngine sampleEngine sample23 sample23
                  eq_refl eq_refl eq_refl)).
Defined.

Lemma entry_points_deterministic_witness :
  activeBackend (freshEngine referenceBackend) = activeBackend sampleEngine
  ∧ ByContents (activeBackend (freshEngine referenceBackend))
  ∧ sameOperand (OLike literalColumn) (OLike literalColumn)
  ∧ sameOperand (L:=NestedLiteral) (OTensor (twoOf float32 1))
                                   (OTensor (twoOf float32 9))
  ∧ sameOutcome
      (entryPoint true KLess (OLike literalColumn) (OTensor (twoOf float32 1))
                  (freshEngine referenceBackend)).1
      (entryPoint true KLess (OLike literalColumn) (OTensor (twoOf float32 9))
                  sampleEngine).1
  ∧ sameOutcome
      (entryPoint false KLess (OLike literalColumn) (OTensor (twoOf float32 1))
                  (freshEngine referenceBackend)).1
      (entryPoint false KLess (OLike literalColumn) (OTensor (twoOf float32 9))
                  sampleEngine).1.
Proof.
  split; [reflexivity|]. split; [apply referenceBackend_ByContents|].
  split; [reflexivity|]. split; [reflexivity|].
  split.
  - apply (entry_points_deterministic (L:=NestedLiteral) true KLess);
      [reflexivity | apply referenceBackend_ByContents
       | reflexivity | reflexivity].
  - apply (entry_points_deterministic (L:=NestedLiteral) false KLess);
      [reflexivity | apply referenceBackend_ByContents
       | reflexivity | reflexivity].
Defined.


(** * Further properties of the entry points *)

(** ** Exactly which shapes the resolver accepts *)

Lemma resolve_no_clash (s1 s2 : Shape) :
  (∀ j, (j < maxRank s1 s2)%nat →
        clash (dimFromEnd s1 j) (dimFromEnd s2 j) = false) →
  ∃ r, assertAndGetBroadcastShape s1 s2 = Ok r
       ∧ length r = maxRank s1 s2
       ∧ ∀ j, (j < maxRank s1 s2)%nat →
              dimFromEnd r j = Z.max (dimFromEnd s1 j) (dimFromEnd s2 j).
Proof.
  intros Hno. unfold assertAndGetBroadcastShape. fold (maxRank s1 s2).
  set (n := maxRank s1 s2) in *.
  assert (Hn1 : (length s1 ≤ n)%nat) by (unfold n, maxRank; lia).
  assert (Hn2 : (length s2 ≤ n)%nat) by (unfold n, maxRank; lia).
  rewrite broadcastLoop_ok.
  - eexists. split; [reflexivity|]. rewrite app_nil_r.
    assert (Hlen : length ((λ i, Z.max (axisAt (padLeft n s1) i)
                                       (axisAt (padLeft n s2) i))
                             <$> seq 0 n) = n)
      by (by rewrite length_fmap, length_seq).
    split; [exact Hlen|].
    intros j Hj. unfold dimFromEnd at 1.
    rewrite reverse_lookup by lia. rewrite Hlen, list_lookup_fmap.
    rewrite lookup_seq_lt by lia. simpl.
    rewrite !axisAt_padLeft by lia.
    by replace (n - 1 - (n - S j))%nat with j by lia.
  - intros i Hi. rewrite !axisAt_padLeft by lia. apply Hno. lia.
Qed.

Lemma resolve_accepts (s1 s2 : Shape) :
  ¬ BroadcastIncompatible s1 s2 →
  ∃ r, assertAndGetBroadcastShape s1 s2 = Ok r
       ∧ length r = maxRank s1 s2
       ∧ ∀ j, (j < maxRank s1 s2)%nat →
              dimFromEnd r j = Z.max (dimFromEnd s1 j) (dimFromEnd s2 j).
Proof.
  intros Hno. apply resolve_no_clash. intros j Hj.
  destruct (clash (dimFromEnd s1 j) (dimFromEnd s2 j)) eqn:E; [|done].
  exfalso. apply Hno. exists j. split; [exact Hj|]. by apply clash_true.
Qed.

Lemma resolve_Ok_not_incompatible (s1 s2 r : Shape) :
  assertAndGetBroadcastShape s1 s2 = Ok r → ¬ BroadcastIncompatible s1 s2.
Proof.
  intros Hr (msg & Hm)%resolve_incompatible. congruence.
Qed.

(** X1: the resolver (modelled from the spec) succeeds exactly on the pairs
    of shapes that have no aligned pair of unequal sizes both above 1, so a
    size of 0 or 1 goes with every size; and whenever it succeeds the
    result has the larger rank and, on every aligned axis, the larger
    size. *)
Theorem resolver_accepts_exactly (s1 s2 : Shape) :
  ((∃ r, assertAndGetBroadcastShape s1 s2 = Ok r)
   ↔ ¬ BroadcastIncompatible s1 s2)
  ∧ ∀ r, assertAndGetBroadcastShape s1 s2 = Ok r →
         length r = maxRank s1 s2
         ∧ ∀ j, (j < maxRank s1 s2)%nat →
                dimFromEnd r j = Z.max (dimFromEnd s1 j) (dimFromEnd s2 j).
Proof.
  split.
  - split.
    + intros [r Hr]. by eapply resolve_Ok_not_incompatible.
    + intros Hno. destruct (resolve_accepts s1 s2 Hno) as (r & Hr & _).
      by exists r.
  - intros r Hr.
    destruct (resolve_accepts s1 s2) as (r' & Hr' & Hlen & Hdim).
    { by eapply resolve_Ok_not_incompatible. }
    assert (r' = r) as -> by congruence. by split.
Qed.

Lemma resolver_accepts_exactly_witness :
  assertAndGetBroadcastShape [0; 3] [2; 1] = Ok [2; 3]
  ∧ length [2; 3] = maxRank [0; 3]%Z [2; 1]%Z
  ∧ ¬ BroadcastIncompatible [0; 3] [2; 1].
Proof.
  assert (Hr : assertAndGetBroadcastShape [0; 3] [2; 1] = Ok [2; 3])
    by reflexivity.
  split; [exact Hr|]. split.
  - exact (proj1 (proj2 (resolver_accepts_exactly [0; 3] [2; 1]) _ Hr)).
  - exact (proj1 (proj1 (resolver_accepts_exactly [0; 3] [2; 1]))
             (ex_intro _ _ Hr)).
Defined.

Lemma not_incompatible_same (s : Shape) : ¬ BroadcastIncompatible s s.
Proof. by intros (j & _ & _ & _ & Hne). Qed.

Lemma BroadcastIncompatible_sym (s1 s2 : Shape) :
  BroadcastIncompatible s1 s2 → BroadcastIncompatible s2 s1.
Proof.
  intros (j & Hj & H1 & H2 & Hne). exists j.
  unfold maxRank in *. repeat split; [lia | done | done | congruence].
Qed.

Lemma axes_of_shape (s : Shape) :
  (λ i, Z.max (axisAt s i) (axisAt s i)) <$> seq 0 (length s) = s.
Proof.
  apply list_eq. intros i. rewrite list_lookup_fmap.
  destruct (decide (i < length s)%nat) as [Hi|Hi].
  - rewrite lookup_seq_lt by done. simpl. unfold axisAt.
    destruct (lookup_lt_is_Some_2 s i Hi) as [x Hx].
    rewrite Hx. simpl. f_equal. lia.
  - rewrite (lookup_ge_None_2 (seq 0 (length s))) by (rewrite length_seq; lia).
    by rewrite lookup_ge_None_2 by lia.
Qed.

(** X2: on two copies of one shape the resolver (modelled from the spec)
    returns that shape, whatever the sizes are: shapes that pass the strict
    check pass the broadcast check of the delegated call, which predicts
    the common shape. *)
Theorem resolver_same_shape (s : Shape) :
  assertAndGetBroadcastShape s s = Ok s
  ∧ ∀ ctx r, assertShapesMatch s r ctx = Ok tt →
             assertAndGetBroadcastShape s r = Ok s.
Proof.
  assert (Hs : assertAndGetBroadcastShape s s = Ok s).
  { unfold assertAndGetBroadcastShape. rewrite Nat.max_id.
    rewrite broadcastLoop_ok by (intros; apply clash_false_compatible; by left).
    unfold padLeft. rewrite Nat.sub_diag. simpl.
    by rewrite app_nil_r, axes_of_shape. }
  split; [exact Hs|].
  intros ctx r Hr. unfold assertShapesMatch in Hr.
  destruct (arraysEqual s r) eqn:E; [|done].
  apply arraysEqual_eq in E. by subst r.
Qed.

Lemma resolver_same_shape_witness :
  assertShapesMatch [2; 0; 3] [2; 0; 3] "Error in lessStrict: " = Ok tt
  ∧ assertAndGetBroadcastShape [2; 0; 3] [2; 0; 3] = Ok [2; 0; 3].
Proof.
  split; [reflexivity|].
  exact (proj2 (resolver_same_shape [2; 0; 3]) "Error in lessStrict: "
               [2; 0; 3] eq_refl).
Defined.

(** ** Accepted and rejected calls *)

Lemma runKernel_logs (f : KernelBackend.t → Result TensorInfo)
    (ins : NamedTensors) (st : Engine) :
  kernelRuns (runKernel f ins st).2 = ins :: kernelRuns st.
Proof. unfold runKernel. by destruct (f (activeBackend st)). Qed.

Lemma cons_neq {A} (x : A) (l : list A) : x :: l ≠ l.
Proof. intros E. apply (f_equal length) in E. simpl in E. lia. Qed.

Section Acceptance.
Context `{TensorLike L}.

Lemma entryPoint_dispatch (strict : bool) (k : Kind) (a b : Operand L) :
  entryPoint strict k a b
  = if strict then strictDispatch k a b else dispatch k a b.
Proof.
  destruct strict; simpl;
    [apply strictEntry_dispatch | apply broadcastingEntry_dispatch].
Qed.

(** Accepted operands go to the kernel of the relation. *)
Lemma accepted_runs (strict : bool) (k : Kind) (a b : Operand L) (n : string)
    (st st2 : Engine) (a' b' : Tensor) :
  coerceBoth a b n st = (Ok (a', b'), st2) →
  Accepted strict a' b' →
  entryPoint strict k a b st
  = runKernel (λ backend, kernelOf k backend a' b') (kernelInputs a' b') st2.
Proof.
  intros Hc [Hd Hs]. destruct strict; simpl.
  - rewrite (strict_same_shape _ _ _ _ _ _ _ _ Hc Hs).
    destruct (resolve_accepts (t_shape a') (t_shape b')) as (r & Hr & _).
    { rewrite Hs. apply not_incompatible_same. }
    by eapply validateAndRun_kernel.
  - rewrite broadcastingEntry_dispatch.
    rewrite (dispatch_coerced _ _ _ _ _ _ _ _ Hc).
    destruct (resolve_accepts _ _ Hs) as (r & Hr & _).
    by eapply validateAndRun_kernel.
Qed.

(** Operands that are not accepted are rejected by one of the two checks,
    and the engine is where the coercion left it. *)
Lemma rejected_stops (strict : bool) (k : Kind) (a b : Operand L) (n : string)
    (st st2 : Engine) (a' b' : Tensor) :
  coerceBoth a b n st = (Ok (a', b'), st2) →
  ¬ Accepted strict a' b' →
  ∃ e, entryPoint strict k a b st = (Err e, st2)
       ∧ (errorKind e = KTypeMismatch ∨ errorKind e = KShapeMismatch).
Proof.
  intros Hc Hno. destruct strict; simpl.
  - destruct (decide (t_shape a' = t_shape b')) as [Hs|Hs].
    + destruct (decide (t_dtype a' = t_dtype b')) as [Hd|Hd];
        [by destruct Hno|].
      rewrite (strict_same_shape _ _ _ _ _ _ _ _ Hc Hs).
      rewrite (validateAndRun_type_mismatch _ _ _ _ Hd).
      eexists. split; [done | by left].
    + destruct (strict_shape_mismatch k _ _ _ _ _ _ _ Hc Hs) as (msg & -> & _).
      eexists. split; [done | by right].
  - rewrite broadcastingEntry_dispatch.
    rewrite (dispatch_coerced _ _ _ _ _ _ _ _ Hc).
    destruct (decide (t_dtype a' = t_dtype b')) as [Hd|Hd].
    + destruct (assertAndGetBroadcastShape (t_shape a') (t_shape b'))
        as [r|e] eqn:Hr.
      * destruct Hno. split; [done|]. by eapply resolve_Ok_not_incompatible.
      * rewrite (validateAndRun_shape_mismatch _ _ _ _ _ Hd Hr).
        exists e. split; [done|]. right.
        unfold assertAndGetBroadcastShape in Hr.
        revert Hr. generalize (@nil Z).
        generalize (Nat.max (length (t_shape a')) (length (t_shape b'))) at 3.
        intros m. induction m as [|m IH]; intros acc; simpl; [done|].
        destruct (clash _ _); [by intros [= <-] | apply IH].
    + rewrite (validateAndRun_type_mismatch _ _ _ _ Hd).
      eexists. split; [done | by left].
Qed.

(** Whether coerced operands are accepted can be told. *)
Lemma Accepted_dec (strict : bool) (a' b' : Tensor) :
  Accepted strict a' b' ∨ ¬ Accepted strict a' b'.
Proof.
  unfold Accepted.
  destruct (decide (t_dtype a' = t_dtype b')) as [Hd|Hd]; [|right; tauto].
  destruct strict.
  - destruct (decide (t_shape a' = t_shape b')); [by left | right; tauto].
  - destruct (assertAndGetBroadcastShape (t_shape a') (t_shape b'))
      as [r|e] eqn:Hr.
    + left. split; [done|]. by eapply resolve_Ok_not_incompatible.
    + right. intros [_ Hno].
      destruct (resolve_accepts _ _ Hno) as (r & Hr' & _). congruence.
Qed.
End Acceptance.

Section Calls.
Context `{TensorLike L}.

(** X3: when both operands coerce and are accepted (one element type; one
    shape for a strict entry point, broadcastable shapes for a broadcasting
    one) and the kernel of the relation returns contents [out], each of the
    twelve entry points returns a tensor with exactly these contents under
    an identity that was free, registers it, logs one kernel run with the
    inputs [$a] and [$b] bound to the coerced operands, and records the
    result with those inputs. *)
Theorem accepted_call_succeeds (strict : bool) (k : Kind) (a b : Operand L)
    (n : string) (st st2 : Engine) (a' b' : Tensor) (out : TensorInfo) :
  coerceBoth a b n st = (Ok (a', b'), st2) →
  Accepted strict a' b' →
  kernelOf k (activeBackend st) a' b' = Ok out →
  ∃ y, (entryPoint strict k a b st).1 = Ok y
       ∧ info y = out
       ∧ registry st2 !! id y = None
       ∧ registry (entryPoint strict k a b st).2
         = <[id y := out]> (registry st2)
       ∧ kernelRuns (entryPoint strict k a b st).2
         = kernelInputs a' b' :: kernelRuns st
       ∧ tape (entryPoint strict k a b st).2
         = (y, kernelInputs a' b') :: tape st.
Proof.
  intros Hc Hacc Hk.
  destruct (coerceBoth_frame _ _ _ _ _ _ _ Hc) as [[Hb _] [Hq Ht]].
  rewrite (accepted_runs _ _ _ _ _ _ _ _ _ Hc Hacc).
  unfold runKernel. rewrite Hb, Hk. simpl.
  eexists. split; [reflexivity|]. simpl.
  split; [done|]. split; [apply fresh_unregistered|].
  split; [done|]. split; congruence.
Qed.

(** X4: when both operands coerce and are accepted but the kernel of the
    relation fails, each of the twelve entry points fails with the kernel's
    own error, unchanged; the kernel run is logged, no result is recorded
    and no tensor is registered. *)
Theorem kernel_failure_passed_on (strict : bool) (k : Kind) (a b : Operand L)
    (n : string) (st st2 : Engine) (a' b' : Tensor) (e : Error) :
  coerceBoth a b n st = (Ok (a', b'), st2) →
  Accepted strict a' b' →
  kernelOf k (activeBackend st) a' b' = Err e →
  entryPoint strict k a b st
  = (Err e, mkEngine (activeBackend st) (registry st2)
                     (kernelInputs a' b' :: kernelRuns st) (tape st)).
Proof.
  intros Hc Hacc Hk.
  destruct (coerceBoth_frame _ _ _ _ _ _ _ Hc) as [[Hb _] [Hq Ht]].
  rewrite (accepted_runs _ _ _ _ _ _ _ _ _ Hc Hacc).
  unfold runKernel. rewrite Hb, Hk. by rewrite Hq, Ht.
Qed.

(** X5: when both operands coerce, an entry point runs a kernel if and only
    if the coerced operands are accepted; operands that are not accepted
    fail with a type or shape mismatch and leave the engine where the
    coercion left it. *)
Theorem kernel_runs_iff_accepted (strict : bool) (k : Kind) (a b : Operand L)
    (n : string) (st st2 : Engine) (a' b' : Tensor) :
  coerceBoth a b n st = (Ok (a', b'), st2) →
  (kernelRuns (entryPoint strict k a b st).2
   = kernelInputs a' b' :: kernelRuns st
   ↔ Accepted strict a' b')
  ∧ (¬ Accepted strict a' b' →
     ∃ e, entryPoint strict k a b st = (Err e, st2)
          ∧ (errorKind e = KTypeMismatch ∨ errorKind e = KShapeMismatch)).
Proof.
  intros Hc.
  destruct (coerceBoth_frame _ _ _ _ _ _ _ Hc) as [_ [Hq _]].
  split; [|by apply (rejected_stops strict k a b n)].
  split.
  - intros Hruns. destruct (Accepted_dec strict a' b') as [|Hno]; [done|].
    destruct (rejected_stops strict k _ _ _ _ _ _ _ Hc Hno) as (e & He & _).
    rewrite He in Hruns. simpl in Hruns. rewrite Hq in Hruns.
    symmetry in Hruns. by apply cons_neq in Hruns.
  - intros Hacc. rewrite (accepted_runs _ _ _ _ _ _ _ _ _ Hc Hacc).
    by rewrite runKernel_logs, Hq.
Qed.

(** X6: a strict call that succeeds can be replaced by the broadcasting call
    of the same relation: it returns the same tensor and leaves the engine
    in the same state. *)
Theorem strict_success_is_broadcasting_success (k : Kind) (a b : Operand L)
    (st st' : Engine) (y : Tensor) :
  strictEntry k a b st = (Ok y, st') →
  broadcastingEntry k a b st = (Ok y, st').
Proof.
  rewrite strictEntry_dispatch, broadcastingEntry_dispatch.
  unfold strictDispatch, dispatch. rewrite !bind_run.
  destruct (convertToTensor a "a" (strictName k) st) as [[x|e] st1] eqn:Ha;
    [|done].
  rewrite (convertToTensor_Ok_names _ _ _ "a" (broadcastingName k) _ _ _ Ha).
  rewrite !bind_run.
  destruct (convertToTensor b "b" (strictName k) st1) as [[z|e] st2] eqn:Hb;
    [|done].
  rewrite (convertToTensor_Ok_names _ _ _ "b" (broadcastingName k) _ _ _ Hb).
  rewrite bind_run. unfold lift.
  destruct (assertShapesMatch _ _ _); [|done].
  rewrite bind_run. simpl. by rewrite !bind_run.
Qed.

(** X7: called with one tensor as both operands, none of the twelve entry
    points can fail in a check: the call goes to the kernel of the relation
    with that tensor as [$a] and as [$b]. *)
Theorem same_tensor_reaches_kernel (strict : bool) (k : Kind) (t : Tensor)
    (st : Engine) :
  entryPoint (L:=L) strict k (OTensor t) (OTensor t) st
  = runKernel (λ backend, kernelOf k backend t t) (kernelInputs t t) st.
Proof.
  apply (accepted_runs strict k (OTensor t) (OTensor t) "");
    [reflexivity|].
  split; [done|]. destruct strict; [done | apply not_incompatible_same].
Qed.

(** X8: with tensor operands the checks do not depend on the order of the
    operands: a call is stopped before the kernel exactly when the call
    with the operands swapped is. *)
Theorem rejection_symmetric (strict : bool) (k : Kind) (x y : Tensor)
    (st : Engine) :
  kernelRuns (entryPoint (L:=L) strict k (OTensor x) (OTensor y) st).2
  = kernelRuns st
  ↔ kernelRuns (entryPoint (L:=L) strict k (OTensor y) (OTensor x) st).2
    = kernelRuns st.
Proof.
  assert (Hsym : ∀ u v : Tensor, Accepted strict u v → Accepted strict v u).
  { intros u v [Hd Hs]. split; [done|].
    destruct strict; [done|].
    intros Hi. by apply Hs, BroadcastIncompatible_sym. }
  assert (Hone : ∀ u v : Tensor,
    kernelRuns (entryPoint (L:=L) strict k (OTensor u) (OTensor v) st).2
    = kernelRuns st → ¬ Accepted strict u v).
  { intros u v Hq Hacc.
    rewrite (accepted_runs strict k (OTensor u) (OTensor v) "" st st u v
               eq_refl Hacc), runKernel_logs in Hq.
    by apply cons_neq in Hq. }
  assert (Hrej : ∀ u v : Tensor, ¬ Accepted strict u v →
    kernelRuns (entryPoint (L:=L) strict k (OTensor u) (OTensor v) st).2
    = kernelRuns st).
  { intros u v Hno.
    destruct (rejected_stops strict k (OTensor u) (OTensor v) "" st st u v
                eq_refl Hno) as (e & -> & _). done. }
  split; intros Hq; apply Hrej; intros Hacc;
    eapply Hone; [exact Hq | by apply Hsym | exact Hq | by apply Hsym].
Qed.

(** X9: whether and how a broadcasting call is stopped by the checks does
    not depend on the relation: operands that coerce and are not accepted
    get the same error from all six broadcasting entry points. *)
Theorem rejection_independent_of_relation (k k' : Kind) (a b : Operand L)
    (n : string) (st st2 : Engine) (a' b' : Tensor) :
  coerceBoth a b n st = (Ok (a', b'), st2) →
  ¬ Accepted false a' b' →
  broadcastingEntry k a b st = broadcastingEntry k' a b st.
Proof.
  intros Hc Hno. rewrite !broadcastingEntry_dispatch.
  rewrite !(dispatch_coerced _ _ _ _ _ _ _ _ Hc).
  destruct (decide (t_dtype a' = t_dtype b')) as [Hd|Hd].
  - destruct (assertAndGetBroadcastShape (t_shape a') (t_shape b'))
      as [r|e] eqn:Hr.
    + destruct Hno. split; [done|]. by eapply resolve_Ok_not_incompatible.
    + by rewrite !(validateAndRun_shape_mismatch _ _ _ _ _ Hd Hr).
  - by rewrite !validateAndRun_type_mismatch.
Qed.

(** X10: a first operand that is a literal no tensor can be made of stops
    each of the twelve entry points with [InvalidOperandError] naming the
    argument "a" and the entry point's own name; the second operand is not
    looked at and the engine is untouched. *)
Theorem invalid_first_operand (strict : bool) (k : Kind) (v : L)
    (b : Operand L) (st : Engine) :
  inferTensor v = None →
  entryPoint strict k (OLike v) b st
  = (Err (InvalidOperandError "a" (entryName strict k)), st).
Proof.
  intros Hv. rewrite entryPoint_dispatch.
  destruct strict; unfold strictDispatch, dispatch; rewrite bind_run; simpl;
    by rewrite Hv.
Qed.

(** X11: when the first operand coerces and the second is a literal no
    tensor can be made of, each of the twelve entry points fails with
    [InvalidOperandError] naming the argument "b" and the entry point's own
    name, in the engine as the first coercion left it. *)
Theorem invalid_second_operand (strict : bool) (k : Kind) (a : Operand L)
    (v : L) (st st1 : Engine) (a' : Tensor) :
  convertToTensor a "a" (entryName strict k) st = (Ok a', st1) →
  inferTensor v = None →
  entryPoint strict k a (OLike v) st
  = (Err (InvalidOperandError "b" (entryName strict k)), st1).
Proof.
  intros Ha Hv. rewrite entryPoint_dispatch.
  destruct strict; unfold strictDispatch, dispatch; simpl in Ha;
    rewrite bind_run, Ha, bind_run; simpl; by rewrite Hv.
Qed.
End Calls.

(** ** What a call records *)

Lemma Logged_after (st st1 : Engine) (out : Result Tensor * Engine) :
  quiet st st1 → Logged st1 out → Logged st out.
Proof.
  intros [Hk Ht] [(Hk' & Ht' & He) | (ins & Hk' & Hout)].
  - left. repeat split; [congruence | congruence | done].
  - right. exists ins. split; [congruence|].
    destruct (out.1); congruence.
Qed.

Lemma Logged_error (st : Engine) (e : Error) : Logged st (Err e, st).
Proof. left. repeat split. by exists e. Qed.

Lemma runKernel_Logged (f : KernelBackend.t → Result TensorInfo)
    (ins : NamedTensors) (st : Engine) :
  Logged st (runKernel f ins st).
Proof.
  right. exists ins. unfold runKernel.
  by destruct (f (activeBackend st)).
Qed.

Section Records.
Context `{TensorLike L}.

Lemma validateAndRun_Logged (k : Kind) (a' b' : Tensor) (st : Engine) :
  Logged st (validateAndRun k a' b' st).
Proof.
  destruct (decide (t_dtype a' = t_dtype b')) as [Hd|Hd].
  - destruct (assertAndGetBroadcastShape (t_shape a') (t_shape b'))
      as [r|e] eqn:Hs.
    + rewrite (validateAndRun_kernel _ _ _ _ _ Hd Hs).
      apply runKernel_Logged.
    + rewrite (validateAndRun_shape_mismatch _ _ _ _ _ Hd Hs).
      apply Logged_error.
  - rewrite (validateAndRun_type_mismatch _ _ _ _ Hd). apply Logged_error.
Qed.

Lemma dispatch_Logged (k : Kind) (a b : Operand L) (st : Engine) :
  Logged st (dispatch k a b st).
Proof.
  unfold dispatch. rewrite bind_run.
  pose proof (convertToTensor_frame a "a" (broadcastingName k) st)
    as [_ Hq1].
  destruct (convertToTensor a "a" (broadcastingName k) st) as [[x|e] st1];
    simpl in Hq1;
    [|by eapply Logged_after; [|apply Logged_error]].
  rewrite bind_run.
  pose proof (convertToTensor_frame b "b" (broadcastingName k) st1)
    as [_ Hq2].
  destruct (convertToTensor b "b" (broadcastingName k) st1) as [[y|e] st2];
    simpl in Hq2.
  - eapply Logged_after; [by eapply quiet_trans|].
    apply validateAndRun_Logged.
  - eapply Logged_after; [by eapply quiet_trans|]. apply Logged_error.
Qed.

Lemma strictDispatch_Logged (k : Kind) (a b : Operand L) (st : Engine) :
  Logged st (strictDispatch k a b st).
Proof.
  unfold strictDispatch. rewrite bind_run.
  pose proof (convertToTensor_frame a "a" (strictName k) st) as [_ Hq1].
  destruct (convertToTensor a "a" (strictName k) st) as [[x|e] st1];
    simpl in Hq1;
    [|by eapply Logged_after; [|apply Logged_error]].
  rewrite bind_run.
  pose proof (convertToTensor_frame b "b" (strictName k) st1) as [_ Hq2].
  destruct (convertToTensor b "b" (strictName k) st1) as [[y|e] st2];
    simpl in Hq2.
  - rewrite bind_run. unfold lift.
    eapply Logged_after; [by eapply quiet_trans|].
    destruct (assertShapesMatch _ _ _); [|apply Logged_error].
    rewrite dispatch_tensors. apply validateAndRun_Logged.
  - eapply Logged_after; [by eapply quiet_trans|]. apply Logged_error.
Qed.

(** X12: each of the twelve entry points, on whatever operands and engine,
    runs the kernel at most once (a strict entry point too, although it
    goes through the broadcasting one): either the call has failed with
    nothing logged and nothing recorded, or exactly one kernel run is
    logged, and then a returned tensor is recorded once, with the inputs of
    that run, while a failure records nothing. *)
Theorem at_most_one_kernel_run (strict : bool) (k : Kind) (a b : Operand L)
    (st : Engine) :
  (kernelRuns (entryPoint strict k a b st).2 = kernelRuns st
   ∧ tape (entryPoint strict k a b st).2 = tape st
   ∧ ∃ e, (entryPoint strict k a b st).1 = Err e)
  ∨ ∃ ins, kernelRuns (entryPoint strict k a b st).2 = ins :: kernelRuns st
           ∧ match (entryPoint strict k a b st).1 with
             | Ok y => tape (entryPoint strict k a b st).2
                       = (y, ins) :: tape st
             | Err _ => tape (entryPoint strict k a b st).2 = tape st
             end.
Proof.
  change (Logged st (entryPoint strict k a b st)).
  rewrite entryPoint_dispatch. destruct strict.
  - apply strictDispatch_Logged.
  - apply dispatch_Logged.
Qed.

Lemma entryPoint_Framed (strict : bool) (k : Kind) (a b : Operand L)
    (st : Engine) :
  Framed st (entryPoint strict k a b st).
Proof.
  rewrite entryPoint_dispatch. destruct strict.
  - apply strictDispatch_Framed.
  - apply dispatch_Framed.
Qed.

(** X13: results of successive calls never share an identity, and the
    result of the first call is still alive, with its contents, after the
    second: a result can be kept, or passed on as an operand, while further
    relations are computed. *)
Theorem successive_results_distinct (s1 s2 : bool) (k1 k2 : Kind)
    (a b c d : Operand L) (st : Engine) (y1 y2 : Tensor) :
  (entryPoint s1 k1 a b st).1 = Ok y1 →
  (entryPoint s2 k2 c d (entryPoint s1 k1 a b st).2).1 = Ok y2 →
  id y1 ≠ id y2
  ∧ registry (entryPoint s2 k2 c d (entryPoint s1 k1 a b st).2).2 !! id y1
    = Some (info y1).
Proof.
  intros H1 H2.
  pose proof (entryPoint_Framed s1 k1 a b st) as (_ & _ & Hf1).
  pose proof (entryPoint_Framed s2 k2 c d (entryPoint s1 k1 a b st).2)
    as (_ & Hsub & Hf2).
  rewrite H1 in Hf1. rewrite H2 in Hf2.
  destruct Hf1 as [_ Hreg1]. destruct Hf2 as [Hfree2 _].
  split; [intros E; rewrite E in Hreg1; congruence|].
  by eapply lookup_weaken.
Qed.

Lemma not_incompatible_scalar (s : Shape) : ¬ BroadcastIncompatible s [].
Proof. intros (j & _ & _ & H2 & _). unfold dimFromEnd in H2. simpl in H2. lia. Qed.

(** X14: a tensor of rank 0 goes with a tensor of any shape and the same
    element type in every broadcasting entry point, on either side: the
    call reaches the kernel.  The strict entry points reject the pair
    unless the other tensor has rank 0 as well. *)
Theorem scalar_operand (k : Kind) (x y : Tensor) (st : Engine) :
  t_shape y = [] →
  t_dtype x = t_dtype y →
  broadcastingEntry (L:=L) k (OTensor x) (OTensor y) st
  = runKernel (λ backend, kernelOf k backend x y) (kernelInputs x y) st
  ∧ broadcastingEntry (L:=L) k (OTensor y) (OTensor x) st
    = runKernel (λ backend, kernelOf k backend y x) (kernelInputs y x) st
  ∧ (t_shape x ≠ [] →
     ∃ msg, strictEntry (L:=L) k (OTensor x) (OTensor y) st
            = (Err (ShapeMismatchError msg), st)).
Proof.
  intros Hy Hd.
  assert (Hxy : Accepted false x y).
  { split; [done|]. rewrite Hy. apply not_incompatible_scalar. }
  assert (Hyx : Accepted false y x).
  { split; [done|]. intros Hi%BroadcastIncompatible_sym.
    rewrite Hy in Hi. by apply not_incompatible_scalar in Hi. }
  split; [exact (accepted_runs false k (OTensor x) (OTensor y) "" st st x y
                   eq_refl Hxy)|].
  split; [exact (accepted_runs false k (OTensor y) (OTensor x) "" st st y x
                   eq_refl Hyx)|].
  intros Hx.
  destruct (strict_shape_mismatch k (OTensor x) (OTensor y) "" st st x y
              eq_refl) as (msg & Hm & _); [congruence|].
  by exists msg.
Qed.
End Records.

(** ** The further properties on concrete calls *)

Lemma column_two_accepted : Accepted false (columnOf int32 1) (twoOf int32 2).
Proof.
  split; [reflexivity|].
  by apply (resolve_Ok_not_incompatible [2; 1] [1] [2; 1]).
Qed.

Lemma accepted_call_succeeds_witness :
  coerceBoth (L:=NestedLiteral) (OTensor (columnOf int32 1))
             (OTensor (twoOf int32 2)) "less" sampleEngine
  = (Ok (columnOf int32 1, twoOf int32 2), sampleEngine)
  ∧ Accepted false (columnOf int32 1) (twoOf int32 2)
  ∧ kernelOf KLess (activeBackend sampleEngine)
             (columnOf int32 1) (twoOf int32 2)
    = Ok (mkInfo [2; 1] bool_ [1; 0])
  ∧ ∃ y, (entryPoint (L:=NestedLiteral) false KLess
            (OTensor (columnOf int32 1)) (OTensor (twoOf int32 2))
            sampleEngine).1 = Ok y
         ∧ info y = mkInfo [2; 1] bool_ [1; 0].
Proof.
  split; [reflexivity|]. split; [exact column_two_accepted|].
  split; [reflexivity|].
  destruct (accepted_call_succeeds (L:=NestedLiteral) false KLess
              (OTensor (columnOf int32 1)) (OTensor (twoOf int32 2)) "less"
              sampleEngine sampleEngine (columnOf int32 1) (twoOf int32 2)
              (mkInfo [2; 1] bool_ [1; 0])
              eq_refl column_two_accepted eq_refl) as (y & Hy & Hi & _).
  exists y. split; [exact Hy | exact Hi].
Defined.

Lemma kernel_failure_passed_on_witness :
  coerceBoth (L:=NestedLiteral) (OTensor sample23) (OTensor sample23)
             "equalStrict" (freshEngine failingBackend)
  = (Ok (sample23, sample23), freshEngine failingBackend)
  ∧ Accepted true sample23 sample23
  ∧ kernelOf KEqual (activeBackend (freshEngine failingBackend))
             sample23 sample23
    = Err (BackendFailure "kernel failed")
  ∧ entryPoint (L:=NestedLiteral) true KEqual
      (OTensor sample23) (OTensor sample23) (freshEngine failingBackend)
    = (Err (BackendFailure "kernel failed"),
       mkEngine failingBackend ∅ [kernelInputs sample23 sample23] []).
Proof.
  assert (Hacc : Accepted true sample23 sample23) by (by split).
  split; [reflexivity|]. split; [exact Hacc|]. split; [reflexivity|].
  exact (kernel_failure_passed_on (L:=NestedLiteral) true KEqual
           (OTensor sample23) (OTensor sample23) "equalStrict"
           (freshEngine failingBackend) (freshEngine failingBackend)
           sample23 sample23 (BackendFailure "kernel failed")
           eq_refl Hacc eq_refl).
Defined.

Lemma kernel_runs_iff_accepted_witness :
  coerceBoth (L:=NestedLiteral) (OTensor sample23) (OTensor sample43)
             "greater" sampleEngine
  = (Ok (sample23, sample43), sampleEngine)
  ∧ (kernelRuns (entryPoint (L:=NestedLiteral) false KGreater
                   (OTensor sample23) (OTensor sample43) sampleEngine).2
     = kernelInputs sample23 sample43 :: kernelRuns sampleEngine
     ↔ Accepted false sample23 sample43).
Proof.
  split; [reflexivity|].
  exact (proj1 (kernel_runs_iff_accepted (L:=NestedLiteral) false KGreater
                  (OTensor sample23) (OTensor sample43) "greater"
                  sampleEngine sampleEngine sample23 sample43 eq_refl)).
Defined.

Lemma strict_success_is_broadcasting_success_witness :
  strictEntry (L:=NestedLiteral) KLess
    (OLike literalTwo) (OTensor (twoOf float32 1)) sampleEngine
  = (Ok (mkTensor 4 (mkInfo [1] bool_ [0])),
     (strictEntry (L:=NestedLiteral) KLess
        (OLike literalTwo) (OTensor (twoOf float32 1)) sampleEngine).2)
  ∧ broadcastingEntry (L:=NestedLiteral) KLess
      (OLike literalTwo) (OTensor (twoOf float32 1)) sampleEngine
    = (Ok (mkTensor 4 (mkInfo [1] bool_ [0])),
       (strictEntry (L:=NestedLiteral) KLess
          (OLike literalTwo) (OTensor (twoOf float32 1)) sampleEngine).2).
Proof.
  assert (Hs : strictEntry (L:=NestedLiteral) KLess
                 (OLike literalTwo) (OTensor (twoOf float32 1)) sampleEngine
               = (Ok (mkTensor 4 (mkInfo [1] bool_ [0])),
                  (strictEntry (L:=NestedLiteral) KLess
                     (OLike literalTwo) (OTensor (twoOf float32 1))
                     sampleEngine).2))
    by (vm_compute; reflexivity).
  split; [exact Hs|].
  exact (strict_success_is_broadcasting_success (L:=NestedLiteral) KLess
           _ _ _ _ _ Hs).
Defined.

Lemma rejection_independent_of_relation_witness :
  coerceBoth (L:=NestedLiteral) (OTensor sample23) (OTensor sample43)
             "less" sampleEngine
  = (Ok (sample23, sample43), sampleEngine)
  ∧ ¬ Accepted false sample23 sample43
  ∧ broadcastingEntry (L:=NestedLiteral) KLess
      (OTensor sample23) (OTensor sample43) sampleEngine
    = broadcastingEntry KNotEqual
        (OTensor sample23) (OTensor sample43) sampleEngine.
Proof.
  assert (Hno : ¬ Accepted false sample23 sample43).
  { intros [_ Hs]. apply Hs. exists 1%nat. vm_compute.
    repeat split; congruence || lia. }
  split; [reflexivity|]. split; [exact Hno|].
  exact (rejection_independent_of_relation (L:=NestedLiteral) KLess KNotEqual
           (OTensor sample23) (OTensor sample43) "less"
           sampleEngine sampleEngine sample23 sample43 eq_refl Hno).
Defined.

Lemma invalid_first_operand_witness :
  inferTensor literalRagged = None
  ∧ entryPoint true KGreaterEqual (OLike literalRagged) (OLike literalRagged)
               sampleEngine
    = (Err (InvalidOperandError "a" "greaterEqualStrict"), sampleEngine).
Proof.
  split; [reflexivity|].
  exact (invalid_first_operand (L:=NestedLiteral) true KGreaterEqual
           literalRagged (OLike literalRagged) sampleEngine eq_refl).
Defined.

Lemma invalid_second_operand_witness :
  convertToTensor (L:=NestedLiteral) (OTensor sample23) "a"
                  (entryName false KLessEqual) sampleEngine
  = (Ok sample23, sampleEngine)
  ∧ inferTensor literalRagged = None
  ∧ entryPoint false KLessEqual (OTensor sample23) (OLike literalRagged)
               sampleEngine
    = (Err (InvalidOperandError "b" "lessEqual"), sampleEngine).
Proof.
  split; [reflexivity|]. split; [reflexivity|].
  exact (invalid_second_operand (L:=NestedLiteral) false KLessEqual
           (OTensor sample23) literalRagged sampleEngine sampleEngine
           sample23 eq_refl eq_refl).
Defined.

Lemma successive_results_distinct_witness :
  (entryPoint (L:=NestedLiteral) false KLess
     (OTensor sample23) (OTensor sample23) sampleEngine).1
  = Ok (mkTensor 3 (mkInfo [2; 3] bool_ [0; 0; 0; 0; 0; 0]))
  ∧ (entryPoint (L:=NestedLiteral) true KEqual
       (OTensor (mkTensor 3 (mkInfo [2; 3] bool_ [0; 0; 0; 0; 0; 0])))
       (OTensor (mkTensor 3 (mkInfo [2; 3] bool_ [0; 0; 0; 0; 0; 0])))
       (entryPoint (L:=NestedLiteral) false KLess
          (OTensor sample23) (OTensor sample23) sampleEngine).2).1
    = Ok (mkTensor 4 (mkInfo [2; 3] bool_ [1; 1; 1; 1; 1; 1]))
  ∧ (3 ≠ 4)%positive.
Proof.
  assert (H1 : (entryPoint (L:=NestedLiteral) false KLess
                  (OTensor sample23) (OTensor sample23) sampleEngine).1
               = Ok (mkTensor 3 (mkInfo [2; 3] bool_ [0; 0; 0; 0; 0; 0])))
    by (vm_compute; reflexivity).
  assert (H2 : (entryPoint (L:=NestedLiteral) true KEqual
       (OTensor (mkTensor 3 (mkInfo [2; 3] bool_ [0; 0; 0; 0; 0; 0])))
       (OTensor (mkTensor 3 (mkInfo [2; 3] bool_ [0; 0; 0; 0; 0; 0])))
       (entryPoint (L:=NestedLiteral) false KLess
          (OTensor sample23) (OTensor sample23) sampleEngine).2).1
    = Ok (mkTensor 4 (mkInfo [2; 3] bool_ [1; 1; 1; 1; 1; 1])))
    by (vm_compute; reflexivity).
  split; [exact H1|]. split; [exact H2|].
  exact (proj1 (successive_results_distinct (L:=NestedLiteral) false true
                  KLess KEqual _ _ _ _ _ _ _ H1 H2)).
Defined.

Lemma scalar_operand_witness :
  t_shape sampleScalar = []
  ∧ t_dtype sample23 = t_dtype sampleScalar
  ∧ t_shape sample23 ≠ []
  ∧ broadcastingEntry (L:=NestedLiteral) KGreater
      (OTensor sample23) (OTensor sampleScalar) sampleEngine
    = runKernel (λ backend, kernelOf KGreater backend sample23 sampleScalar)
                (kernelInputs sample23 sampleScalar) sampleEngine
  ∧ ∃ msg, strictEntry (L:=NestedLiteral) KGreater
             (OTensor sample23) (OTensor sampleScalar) sampleEngine
           = (Err (ShapeMismatchError msg), sampleEngine).
Proof.
  assert (Hx : t_shape sample23 ≠ []) by discriminate.
  split; [reflexivity|]. split; [reflexivity|]. split; [exact Hx|].
  destruct (scalar_operand (L:=NestedLiteral) KGreater sample23 sampleScalar
              sampleEngine eq_refl eq_refl) as (Hb & _ & Hs).
  split; [exact Hb | exact (Hs Hx)].
Defined.
